(** * TextractAPI/handler.py: the four Lambda handlers over an explicit world

    The handlers [create_file], [process_file], [make_callback] and
    [get_file] of [src/TextractAPI/handler.py] are embedded as functions in
    a state-and-exception monad.  The state is the part of the outside world
    the handlers touch: the DynamoDB table [FILES_TABLE], the S3 objects,
    the HTTP requests sent with [requests.post] and the log.  Python values
    that travel through events and JSON bodies are a small inductive type.
    Library calls whose code is outside the repository ([json.loads],
    [base64.b64decode], [uuid.uuid4], Textract, the HTTP peer) are fields of
    the class [Externals]: the general theorems hold for all of its
    instances, the examples run on the instance [double]. *)

From Stdlib Require Import ZArith String Ascii List.
From Stdlib.Strings Require Import Byte.
From stdpp Require Import gmap strings list fin_maps pretty.

Set Warnings "-register-all".

Open Scope string_scope.
Open Scope Z_scope.

Global Instance byte_eq_decision : EqDecision byte := Byte.byte_eq_dec.

(** ** Python values *)

(** The values found in Lambda events, JSON bodies and DynamoDB stream
    images.  A dict keeps its items in order; keys are strings. *)
Inductive pyval : Type :=
| PNone
| PBool (b : bool)
| PInt (n : Z)
| PStr (s : string)
| PList (l : list pyval)
| PDict (d : list (string * pyval)).

(** The exceptions the handlers can meet.  [ValueError] stands for its
    subclasses [json.JSONDecodeError] and [binascii.Error]; [ClientError]
    for what boto3 raises; [RequestException] for what requests raises. *)
Inductive exn : Type :=
| KeyError (key : string)
| IndexError (msg : string)
| TypeError (msg : string)
| ValueError (msg : string)
| ClientError (msg : string)
| RequestException (msg : string).

(** [str(e)]: a [KeyError] prints the repr of its key. *)
Definition str_exn (e : exn) : string :=
  match e with
  | KeyError k => "'" ++ k ++ "'"
  | IndexError m | TypeError m | ValueError m
  | ClientError m | RequestException m => m
  end.

Inductive res (A : Type) : Type :=
| Ok (a : A)
| Raise (e : exn).
Arguments Ok {A} a.
Arguments Raise {A} e.

(** ** Subscripts, iteration, comparison *)

Fixpoint assoc (k : string) (d : list (string * pyval)) : option pyval :=
  match d with
  | [] => None
  | (k', v) :: d' => if String.eqb k k' then Some v else assoc k d'
  end.

(** [l[i]] on a Python list: a negative index counts from the end. *)
Definition list_index (l : list pyval) (i : Z) : res pyval :=
  let n := Z.of_nat (length l) in
  let j := if i <? 0 then i + n else i in
  if (j <? 0) || (n <=? j) then Raise (IndexError "list index out of range")
  else match nth_error l (Z.to_nat j) with
       | Some v => Ok v
       | None => Raise (IndexError "list index out of range")
       end.

Definition chars (s : string) : list pyval :=
  map (fun c => PStr (String c EmptyString)) (list_ascii_of_string s).

(** [v[k]]: dicts are subscripted by strings, lists and strings by integers
    ([True] and [False] are the integers 1 and 0); anything else is a
    [TypeError]. *)
Definition getitem (v k : pyval) : res pyval :=
  match v, k with
  | PDict d, PStr s =>
      match assoc s d with
      | Some x => Ok x
      | None => Raise (KeyError s)
      end
  | PDict _, (PList _ | PDict _) => Raise (TypeError "unhashable type")
  | PDict _, _ => Raise (KeyError "<key>")
  | PList l, PInt i => list_index l i
  | PList l, PBool b => list_index l (if b then 1 else 0)
  | PList _, _ => Raise (TypeError "list indices must be integers or slices")
  | PStr s, PInt i => list_index (chars s) i
  | PStr s, PBool b => list_index (chars s) (if b then 1 else 0)
  | PStr _, _ => Raise (TypeError "string indices must be integers")
  | _, _ => Raise (TypeError "object is not subscriptable")
  end.

(** Chained subscripts [v[k1][k2]...]: the first failure is the result. *)
Definition sub (r : res pyval) (k : pyval) : res pyval :=
  match r with
  | Ok v => getitem v k
  | Raise e => Raise e
  end.

Notation "r '.[' k ']'" := (sub r k) (at level 1, left associativity,
  format "r .[ k ]").

(** [for x in v]: the elements of a list, the keys of a dict, the
    characters of a string. *)
Definition py_iter (v : pyval) : res (list pyval) :=
  match v with
  | PList l => Ok l
  | PDict d => Ok (map (fun kv => PStr (fst kv)) d)
  | PStr s => Ok (chars s)
  | _ => Raise (TypeError "object is not iterable")
  end.

(** [v == 'lit']: only a string is equal to a string literal. *)
Definition py_eq_str (v : pyval) (lit : string) : bool :=
  match v with
  | PStr s => String.eqb s lit
  | _ => false
  end.

(** [sep.join(xs)]: every element must be a string. *)
Fixpoint all_str (xs : list pyval) : res (list string) :=
  match xs with
  | [] => Ok []
  | PStr s :: xs' =>
      match all_str xs' with
      | Ok ss => Ok (s :: ss)
      | Raise e => Raise e
      end
  | _ :: _ => Raise (TypeError "sequence item: expected str instance")
  end.

Definition str_join (sep : string) (xs : list pyval) : res string :=
  match all_str xs with
  | Ok ss => Ok (String.concat sep ss)
  | Raise e => Raise e
  end.

(** ** The world *)

Inductive log_level : Type := INFO | ERROR.

Record log_entry : Type := LogEntry {
  log_lvl : log_level;
  log_fmt : string;
  log_args : list pyval
}.

(** An item of the table: attribute name to value.  Every attribute the
    handlers write is a string. *)
Abbreviation item := (gmap string string).

Record World : Type := mkWorld {
  files_table : gmap string item;             (* FILES_TABLE, by file_id *)
  s3_objects : gmap (string * string) (list byte); (* by (bucket, key) *)
  outbox : list (string * pyval);             (* requests.post(url, json) *)
  logs : list log_entry;
  faults : list (option exn);                 (* fate of the next service calls *)
  entropy : nat                               (* uuid4 draws so far *)
}.

Definition set_table (t : gmap string item) (w : World) : World :=
  mkWorld t (s3_objects w) (outbox w) (logs w) (faults w) (entropy w).
Definition set_s3 (o : gmap (string * string) (list byte)) (w : World) : World :=
  mkWorld (files_table w) o (outbox w) (logs w) (faults w) (entropy w).
Definition set_outbox (o : list (string * pyval)) (w : World) : World :=
  mkWorld (files_table w) (s3_objects w) o (logs w) (faults w) (entropy w).
Definition set_logs (l : list log_entry) (w : World) : World :=
  mkWorld (files_table w) (s3_objects w) (outbox w) l (faults w) (entropy w).
Definition set_faults (f : list (option exn)) (w : World) : World :=
  mkWorld (files_table w) (s3_objects w) (outbox w) (logs w) f (entropy w).
Definition set_entropy (n : nat) (w : World) : World :=
  mkWorld (files_table w) (s3_objects w) (outbox w) (logs w) (faults w) n.

(** ** The monad: state that survives an exception *)

Definition M (A : Type) : Type := World -> res A * World.

Global Instance M_ret : MRet M := fun A a w => (Ok a, w).

Global Instance M_bind : MBind M := fun A B f m w =>
  match m w with
  | (Ok a, w') => f a w'
  | (Raise e, w') => (Raise e, w')
  end.

Definition raise {A} (e : exn) : M A := fun w => (Raise e, w).

Definition lift {A} (r : res A) : M A := fun w => (r, w).

(** [try: m except Exception as e: h e] *)
Definition try_except {A} (m : M A) (h : exn -> M A) : M A := fun w =>
  match m w with
  | (Ok a, w') => (Ok a, w')
  | (Raise e, w') => h e w'
  end.

(** [for x in xs: f x], left to right, stopping at the first exception. *)
Fixpoint for_each {A} (f : A -> M unit) (xs : list A) : M unit :=
  match xs with
  | [] => mret tt
  | x :: xs' => f x ≫= fun _ => for_each f xs'
  end.

(** A call to an outside service (DynamoDB, S3, Textract, HTTP).  The head
    of [faults] decides its fate: [Some e] makes the call raise [e] without
    any effect, [None] (or an exhausted list) lets it through. *)
Definition next_fault (w : World) : option exn * World :=
  match faults w with
  | [] => (None, w)
  | f :: fs => (f, set_faults fs w)
  end.

Definition service {A} (act : M A) : M A := fun w =>
  match next_fault w with
  | (Some e, w') => (Raise e, w')
  | (None, w') => act w'
  end.

Definition logger (lvl : log_level) (fmt : string) (args : list pyval) : M unit :=
  fun w => (Ok tt, set_logs (logs w ++ [LogEntry lvl fmt args]) w).

(** ** What the repository does not contain *)

(** The environment variable [BUCKET_NAME] and the library calls.  A parser
    returns [Raise] where Python's raises; [uuid4 n] is the n-th identifier
    drawn; [detect_document_text] is Textract's answer to a document;
    [http_status n url json] is the status code of the peer's response to
    the POST issued after [n] earlier ones. *)
Class Externals : Type := {
  BUCKET_NAME : string;
  json_loads : string -> res pyval;
  b64decode : string -> res (list byte);
  uuid4 : nat -> string;
  detect_document_text : list byte -> pyval;
  http_status : nat -> string -> pyval -> Z
}.

(** What a handler returns to API Gateway.  [body] is the value handed to
    [json.dumps]. *)
Record response : Type := mkResponse {
  statusCode : Z;
  body : pyval
}.

Section Handlers.
Context `{Externals}.

(** ** Library calls *)

(** [json.loads(x)]: a string is parsed, anything else is a [TypeError]. *)
Definition py_json_loads (x : pyval) : res pyval :=
  match x with
  | PStr s => json_loads s
  | _ => Raise (TypeError "the JSON object must be str, bytes or bytearray")
  end.

(** [base64.b64decode(x)] *)
Definition py_b64decode (x : pyval) : res (list byte) :=
  match x with
  | PStr s => b64decode s
  | _ => Raise (TypeError "argument should be a bytes-like object or ASCII string")
  end.

Definition py_json_loads' (r : res pyval) : res pyval :=
  match r with
  | Ok x => py_json_loads x
  | Raise e => Raise e
  end.

Definition py_b64decode' (r : res pyval) : res (list byte) :=
  match r with
  | Ok x => py_b64decode x
  | Raise e => Raise e
  end.

(** [str(uuid.uuid4())] *)
Definition uuid4_str : M string := fun w =>
  (Ok (uuid4 (entropy w)), set_entropy (S (entropy w)) w).

(** ** DynamoDB: the table FILES_TABLE, keyed by the string [file_id] *)

(** [table.put_item(Item=it)] replaces the whole item. *)
Definition put_item (it : item) : M unit := service (fun w =>
  match it !! "file_id" with
  | Some k => (Ok tt, set_table (<[k := it]> (files_table w)) w)
  | None => (Raise (ClientError "ValidationException"), w)
  end).

(** [SET a1 = v1, a2 = v2, ...] on an item, first assignment first. *)
Definition set_attrs (sets : list (string * string)) (it : item) : item :=
  fold_left (fun acc av => <[fst av := snd av]> acc) sets it.

(** [table.update_item(Key={'file_id': key}, UpdateExpression="SET ...")]
    without a condition: the assignments are applied to the item, and an
    item that does not exist is created from the key. *)
Definition update_item (key : pyval) (sets : list (string * string)) : M unit :=
  service (fun w =>
    match key with
    | PStr k =>
        let old := default {["file_id" := k]} (files_table w !! k) in
        (Ok tt, set_table (<[k := set_attrs sets old]> (files_table w)) w)
    | _ => (Raise (ClientError "ValidationException"), w)
    end).

(** [table.get_item(Key={'file_id': key}).get('Item')] *)
Definition get_item (key : pyval) : M (option item) := service (fun w =>
  match key with
  | PStr k => (Ok (files_table w !! k), w)
  | _ => (Raise (ClientError "ValidationException"), w)
  end).

(** ** S3 *)

Definition put_object (bucket key : string) (content : list byte) : M unit :=
  service (fun w =>
    (Ok tt, set_s3 (<[(bucket, key) := content]> (s3_objects w)) w)).

(** [s3_client.get_object(Bucket=b, Key=k)['Body'].read()] *)
Definition get_object (bucket key : pyval) : M (list byte) := service (fun w =>
  match bucket, key with
  | PStr b, PStr k =>
      match s3_objects w !! (b, k) with
      | Some content => (Ok content, w)
      | None => (Raise (ClientError "NoSuchKey"), w)
      end
  | _, _ => (Raise (ClientError "ParamValidationError"), w)
  end).

(** ** Textract and HTTP *)

Definition textract_detect (content : list byte) : M pyval :=
  service (fun w => (Ok (detect_document_text content), w)).

(** [requests.post(url, json=payload).status_code].  The request is entered
    in [outbox] when it is issued, also when the exchange then fails. *)
Definition requests_post (url payload : pyval) : M Z :=
  match url with
  | PStr u => fun w =>
      service (fun w' => (Ok (http_status (length (outbox w)) u payload), w'))
              (set_outbox (outbox w ++ [(u, payload)]) w)
  | _ => raise (RequestException "Invalid URL")
  end.

(** ** create_file *)

(** The body of the [try] of [create_file]. *)
Definition create_file_try (event : pyval) : M response :=
  body ← lift (py_json_loads' (Ok event).[PStr "body"]);
  file_content ← lift (py_b64decode' (Ok body).[PStr "file"]);
  (* Generate a unique file ID *)
  file_id ← uuid4_str;
  (* Store file metadata in DynamoDB *)
  put_item {["file_id" := file_id; "status" := "UPLOADING"]};;
  logger INFO "Stored file metadata in DynamoDB with file_id: %s" [PStr file_id];;
  (* Upload the file to S3 *)
  put_object BUCKET_NAME file_id file_content;;
  logger INFO "Uploaded file to S3 with file_id: %s" [PStr file_id];;
  (* Update the status in DynamoDB *)
  update_item (PStr file_id) [("status", "UPLOADED")];;
  logger INFO "Updated file status in DynamoDB to 'UPLOADED' with file_id: %s"
    [PStr file_id];;
  mret (mkResponse 200 (PDict [("file_id", PStr file_id)])).

Definition create_file (event : pyval) : M response :=
  try_except (create_file_try event) (fun e =>
    logger ERROR "Error processing file upload: %s" [PStr (str_exn e)];;
    mret (mkResponse 500 (PDict [("error", PStr (str_exn e))]))).

(** ** process_file *)

(** [[item['Text'] for item in blocks if item['BlockType'] == 'LINE']] *)
Fixpoint line_texts (blocks : list pyval) : res (list pyval) :=
  match blocks with
  | [] => Ok []
  | item :: rest =>
      match getitem item (PStr "BlockType") with
      | Raise e => Raise e
      | Ok ty =>
          if py_eq_str ty "LINE" then
            match getitem item (PStr "Text") with
            | Raise e => Raise e
            | Ok t =>
                match line_texts rest with
                | Ok ts => Ok (t :: ts)
                | Raise e => Raise e
                end
            end
          else line_texts rest
      end
  end.

Definition process_file_try (event : pyval) : M response :=
  logger INFO "Received event: %s" [event];;
  (* Get the S3 bucket and object key from the event *)
  bucket_name ← lift (Ok event).[PStr "Records"].[PInt 0].[PStr "s3"]
                      .[PStr "bucket"].[PStr "name"];
  object_key ← lift (Ok event).[PStr "Records"].[PInt 0].[PStr "s3"]
                      .[PStr "object"].[PStr "key"];
  (* Retrieve the document from S3 *)
  file_content ← get_object bucket_name object_key;
  (* Call Amazon Textract to detect text in the document *)
  textract_response ← textract_detect file_content;
  (* Extract the detected text *)
  blocks ← lift (Ok textract_response).[PStr "Blocks"];
  items ← lift (py_iter blocks);
  texts ← lift (line_texts items);
  detected_text ← lift (str_join " " texts);
  (* Update the item in DynamoDB *)
  update_item object_key [("status", "PROCESSED"); ("text", detected_text)];;
  mret (mkResponse 200
          (PDict [("file_id", object_key); ("status", PStr "PROCESSED")])).

Definition process_file (event : pyval) : M response :=
  try_except (process_file_try event) (fun e =>
    logger ERROR "Error processing file: %s" [PStr (str_exn e)];;
    mret (mkResponse 500 (PDict [("error", PStr (str_exn e))]))).

(** ** make_callback *)

(** The body of the loop, for one record of the stream event. *)
Definition callback_record (record : pyval) : M unit :=
  event_name ← lift (Ok record).[PStr "eventName"];
  if py_eq_str event_name "MODIFY" then
    new_image ← lift (Ok record).[PStr "dynamodb"].[PStr "NewImage"];
    file_id ← lift (Ok new_image).[PStr "file_id"].[PStr "S"];
    status ← lift (Ok new_image).[PStr "status"].[PStr "S"];
    if py_eq_str status "COMPLETED" then
      callback_url ← lift (Ok new_image).[PStr "callback_url"].[PStr "S"];
      text ← lift (Ok new_image).[PStr "text"].[PStr "S"];
      status_code ← requests_post callback_url
                      (PDict [("file_id", file_id); ("text", text)]);
      logger INFO "Sent callback to %s with response code %d"
        [callback_url; PInt status_code]
    else mret tt
  else mret tt.

Definition make_callback (event : pyval) : M unit :=
  records ← lift (Ok event).[PStr "Records"];
  items ← lift (py_iter records);
  for_each callback_record items.

(** ** get_file *)

(** [item.get('text')] *)
Definition item_get (it : item) (k : string) : pyval :=
  match it !! k with
  | Some v => PStr v
  | None => PNone
  end.

Definition get_file (event : pyval) : M response :=
  file_id ← lift (Ok event).[PStr "pathParameters"].[PStr "file_id"];
  found ← get_item file_id;
  match found with
  | Some it =>
      (* [if item:] an empty dict is false *)
      if decide (it = ∅) then
        mret (mkResponse 404 (PDict [("error", PStr "File not found")]))
      else
        match it !! "status" with
        | Some status =>
            mret (mkResponse 200
                    (PDict [("file_id", file_id); ("status", PStr status);
                            ("text", item_get it "text")]))
        | None => raise (KeyError "status")
        end
  | None => mret (mkResponse 404 (PDict [("error", PStr "File not found")]))
  end.

End Handlers.

(** ** Reading the ledger, and runs of handler invocations *)

(** The lifecycle state of a document: attribute [status] of its item. *)
Definition state_of (w : World) (id : string) : option string :=
  it ← files_table w !! id; it !! "status".

Definition attr_of (w : World) (id attr : string) : option string :=
  it ← files_table w !! id; it !! attr.

(** One invocation of a handler by the Lambda runtime. *)
Inductive call : Type :=
| CreateFile (event : pyval)
| ProcessFile (event : pyval)
| MakeCallback (event : pyval)
| GetFile (event : pyval).

(** The S3 object key named by an upload event, when it has one. *)
Definition object_key_of (event : pyval) : option string :=
  match (Ok event).[PStr "Records"].[PInt 0].[PStr "s3"]
          .[PStr "object"].[PStr "key"] with
  | Ok (PStr k) => Some k
  | _ => None
  end.

(** The string [NewImage.callback_url.S] of a stream record, when it has
    one. *)
Definition callback_url_of (record : pyval) : option string :=
  match (Ok record).[PStr "dynamodb"].[PStr "NewImage"]
          .[PStr "callback_url"].[PStr "S"] with
  | Ok (PStr u) => Some u
  | _ => None
  end.

(** The records a stream event delivers to the loop of [make_callback]. *)
Definition records_of (event : pyval) : list pyval :=
  match (Ok event).[PStr "Records"] with
  | Ok records =>
      match py_iter records with
      | Ok items => items
      | Raise _ => []
      end
  | Raise _ => []
  end.

(** Two worlds that differ at most in the ledger. *)
Definition same_but_table (w1 w2 : World) : Prop :=
  s3_objects w1 = s3_objects w2 /\ outbox w1 = outbox w2 /\
  logs w1 = logs w2 /\ faults w1 = faults w2 /\ entropy w1 = entropy w2.

(** A computation that never reads the ledger: from worlds that differ at
    most in the ledger it gives the same result, and worlds that again
    differ at most in the ledger. *)
Definition ledger_blind {A} (m : M A) : Prop :=
  forall w1 w2, same_but_table w1 w2 ->
    (m w1).1 = (m w2).1 /\ same_but_table (m w1).2 (m w2).2.

(** Every record of the ledger carries its key as [file_id], and a
    [status]. *)
Definition well_formed (t : gmap string item) : Prop :=
  forall k it, t !! k = Some it ->
    it !! "file_id" = Some k /\ is_Some (it !! "status").

(** The API Gateway event of [GET /files/{file_id}]. *)
Definition query_event (id : string) : pyval :=
  PDict [("pathParameters", PDict [("file_id", PStr id)])].

Section Runs.
Context `{Externals}.

(** The world a handler invocation leaves behind, whether it returned or
    raised. *)
Definition exec (c : call) (w : World) : World :=
  match c with
  | CreateFile ev => (create_file ev w).2
  | ProcessFile ev => (process_file ev w).2
  | MakeCallback ev => (make_callback ev w).2
  | GetFile ev => (get_file ev w).2
  end.

Definition run (cs : list call) (w : World) : World :=
  fold_left (fun w c => exec c w) cs w.

(** [aims_at c w k]: invoked in world [w], [c] is a [process_file] for the
    object key [k] or a [create_file] that draws [k] as its identifier. *)
Definition aims_at (c : call) (w : World) (k : string) : bool :=
  match c with
  | CreateFile _ => bool_decide (uuid4 (entropy w) = k)
  | ProcessFile ev => bool_decide (object_key_of ev = Some k)
  | MakeCallback _ | GetFile _ => false
  end.

(** No invocation of the run aims at [k]. *)
Fixpoint spared (k : string) (cs : list call) (w : World) : bool :=
  match cs with
  | [] => true
  | c :: cs' => negb (aims_at c w k) && spared k cs' (exec c w)
  end.

(** The two ways [create_file] ends.  [ingested]: the answer is 200 with
    the drawn identifier, the record of that identifier is UPLOADED and
    the decoded content is in the bucket.  [ingest_failed]: the answer is
    500 with the text of an exception, and the ledger is as before or has
    the record of the drawn identifier in UPLOADING. *)
Definition ingested (event : pyval) (w : World) (resp : response) (w' : World)
  : Prop :=
  let fid := uuid4 (entropy w) in
  statusCode resp = 200 /\ body resp = PDict [("file_id", PStr fid)] /\
  files_table w' =
    <[fid := {["file_id" := fid; "status" := "UPLOADED"]}]> (files_table w) /\
  exists b content,
    py_json_loads' (Ok event).[PStr "body"] = Ok b /\
    py_b64decode' (Ok b).[PStr "file"] = Ok content /\
    s3_objects w' = <[(BUCKET_NAME, fid) := content]> (s3_objects w).

Definition ingest_failed (w : World) (resp : response) (w' : World) : Prop :=
  let fid := uuid4 (entropy w) in
  statusCode resp = 500 /\
  (exists e, body resp = PDict [("error", PStr (str_exn e))]) /\
  (files_table w' = files_table w \/
   files_table w' =
     <[fid := {["file_id" := fid; "status" := "UPLOADING"]}]> (files_table w)).

(** The two ways [process_file] ends.  [extracted]: the object named by the
    event was read, Textract answered, the text was built from the answer
    and written to the record of the object key.  [extract_failed]: the
    answer is 500 with the text of an exception, which is also the last
    line of the log, and the ledger is as before. *)
Definition extracted (event : pyval) (w : World) (resp : response) (w' : World)
  : Prop :=
  exists b k content blocks items texts t,
    (Ok event).[PStr "Records"].[PInt 0].[PStr "s3"]
      .[PStr "bucket"].[PStr "name"] = Ok (PStr b) /\
    object_key_of event = Some k /\
    s3_objects w !! (b, k) = Some content /\
    (Ok (detect_document_text content)).[PStr "Blocks"] = Ok blocks /\
    py_iter blocks = Ok items /\
    line_texts items = Ok texts /\
    str_join " " texts = Ok t /\
    resp = mkResponse 200
             (PDict [("file_id", PStr k); ("status", PStr "PROCESSED")]) /\
    files_table w' =
      <[k := set_attrs [("status", "PROCESSED"); ("text", t)]
               (default {["file_id" := k]} (files_table w !! k))]>
        (files_table w).

Definition extract_failed (w : World) (resp : response) (w' : World) : Prop :=
  statusCode resp = 500 /\ files_table w' = files_table w /\
  exists e,
    body resp = PDict [("error", PStr (str_exn e))] /\
    last (logs w') =
      Some (LogEntry ERROR "Error processing file: %s" [PStr (str_exn e)]).


End Runs.

(** ** The text of the LINE blocks, as the specification words it *)

Definition is_line (block : pyval) : bool :=
  match getitem block (PStr "BlockType") with
  | Ok ty => py_eq_str ty "LINE"
  | Raise _ => false
  end.

Definition text_field (block : pyval) : option string :=
  match getitem block (PStr "Text") with
  | Ok (PStr t) => Some t
  | _ => None
  end.

(** The [Text] fields of exactly the blocks whose [BlockType] is LINE, in
    response order. *)
Definition line_text_fields (blocks : list pyval) : list string :=
  omap text_field (filter (fun b => is_line b = true) blocks).

(** ** Doubles for the examples *)

Definition dq : string := String "034"%char EmptyString.
Definition quoted (s : string) : string := dq ++ s ++ dq.

(** [{"file": "aGVsbG8="}] *)
Definition hello_body : string :=
  "{" ++ quoted "file" ++ ": " ++ quoted "aGVsbG8=" ++ "}".

(** [{"file": "aGVsbG8=", "callback_url": "https://example.test/hook"}] *)
Definition hello_hook_body : string :=
  "{" ++ quoted "file" ++ ": " ++ quoted "aGVsbG8=" ++ ", "
      ++ quoted "callback_url" ++ ": " ++ quoted "https://example.test/hook"
      ++ "}".

(** The bytes of [b'hello']. *)
Definition hello_bytes : list byte := [x68; x65; x6c; x6c; x6f].

(** A double of the outside libraries.  It answers as the real ones do on
    the texts used in the examples and rejects every other text. *)
Definition double : Externals := {|
  BUCKET_NAME := "textract-files";
  json_loads := fun s =>
    if String.eqb s hello_body then
      Ok (PDict [("file", PStr "aGVsbG8=")])
    else if String.eqb s hello_hook_body then
      Ok (PDict [("file", PStr "aGVsbG8=");
                 ("callback_url", PStr "https://example.test/hook")])
    else if String.eqb s "{}" then Ok (PDict [])
    else Raise (ValueError "Expecting value: line 1 column 1 (char 0)");
  b64decode := fun s =>
    if String.eqb s "aGVsbG8=" then Ok hello_bytes
    else Raise (ValueError "Incorrect padding");
  uuid4 := fun n => "doc-" ++ pretty n;
  detect_document_text := fun content =>
    if bool_decide (content = hello_bytes) then
      PDict [("Blocks",
        PList [PDict [("BlockType", PStr "PAGE")];
               PDict [("BlockType", PStr "LINE"); ("Text", PStr "HELLO")];
               PDict [("BlockType", PStr "WORD"); ("Text", PStr "HELLO")];
               PDict [("BlockType", PStr "LINE"); ("Text", PStr "WORLD")];
               PDict [("BlockType", PStr "WORD"); ("Text", PStr "WORLD")]])]
    else PDict [("Blocks", PList [])];
  http_status := fun _ _ _ => 200
|}.

Definition empty_world : World := mkWorld ∅ ∅ [] [] [] 0.

(** The API Gateway event of an ingest request with the given body. *)
Definition ingest_event (body_text : string) : pyval :=
  PDict [("body", PStr body_text)].

(** The S3 notification for an object created in a bucket. *)
Definition upload_event (bucket key : string) : pyval :=
  PDict [("Records", PList [
    PDict [("s3", PDict [("bucket", PDict [("name", PStr bucket)]);
                         ("object", PDict [("key", PStr key)])])]])].

(** A DynamoDB stream record with the given event name and new image
    (attribute name to string value). *)
Definition stream_record (event_name : string) (image : list (string * string))
  : pyval :=
  PDict [("eventName", PStr event_name);
         ("dynamodb", PDict [("NewImage",
            PDict (map (fun av => (fst av, PDict [("S", PStr (snd av))])) image))])].

Definition stream_event (records : list pyval) : pyval :=
  PDict [("Records", PList records)].

(** The record of the document doc-0 in a given state, with further
    attributes. *)
Definition sample_item (status : string) (extra : list (string * string))
  : item :=
  set_attrs extra {["file_id" := "doc-0"; "status" := status]}.

(** A world after the ingest of [b'hello'] as doc-0: its record in the
    ledger, its bytes in the bucket, one identifier drawn; [fs] is the fate
    of the service calls to come. *)
Definition sample_world (status : string) (extra : list (string * string))
    (fs : list (option exn)) : World :=
  mkWorld {["doc-0" := sample_item status extra]}
          {[("textract-files", "doc-0") := hello_bytes]} [] [] fs 1.

(** The stream record of a change of doc-0 to the given status, with text
    and callback URL in the new image. *)
Definition sample_change (event_name status : string) : pyval :=
  stream_record event_name
    [("file_id", "doc-0"); ("status", status); ("text", "HELLO WORLD");
     ("callback_url", "https://example.test/hook")].

(** The same change, the callback URL left out of the new image. *)
Definition sample_change_no_url (event_name status : string) : pyval :=
  stream_record event_name
    [("file_id", "doc-0"); ("status", status); ("text", "HELLO WORLD")].

Definition hook_url : string := "https://example.test/hook".

(** doc-0 with its text and callback URL, in the given state. *)
Definition notifiable_world (status : string) : World :=
  sample_world status [("text", "HELLO WORLD"); ("callback_url", hook_url)] [].

(** The S3 notification for the bytes of doc-0. *)
Definition doc0_uploaded : pyval := upload_event "textract-files" "doc-0".

(** The answers of [create_file] and [process_file] for doc-0, and the
    answer of [get_file] for an unknown identity. *)
Definition created_doc0 : response :=
  mkResponse 200 (PDict [("file_id", PStr "doc-0")]).
Definition processed_doc0 : response :=
  mkResponse 200 (PDict [("file_id", PStr "doc-0");
                         ("status", PStr "PROCESSED")]).
Definition not_found : response :=
  mkResponse 404 (PDict [("error", PStr "File not found")]).
Definition error_500 (msg : string) : response :=
  mkResponse 500 (PDict [("error", PStr msg)]).

(** The POST that notifies the hook of the text of doc-0. *)
Definition doc0_notification : string * pyval :=
  (hook_url, PDict [("file_id", PStr "doc-0"); ("text", PStr "HELLO WORLD")]).

(** ** Vocabulary for the further properties *)

(** Two worlds that differ at most in the log. *)
Definition same_but_logs (w1 w2 : World) : Prop :=
  files_table w1 = files_table w2 /\ s3_objects w1 = s3_objects w2 /\
  outbox w1 = outbox w2 /\ faults w1 = faults w2 /\ entropy w1 = entropy w2.

(** [NewImage.attr.S] of a stream record. *)
Definition image_attr (record : pyval) (attr : string) : res pyval :=
  (Ok record).[PStr "dynamodb"].[PStr "NewImage"].[PStr attr].[PStr "S"].

(** A record [make_callback] has a POST for: a MODIFY whose new status is
    COMPLETED. *)
Definition is_due (record : pyval) : bool :=
  match getitem record (PStr "eventName"), image_attr record "status" with
  | Ok event_name, Ok status =>
      py_eq_str event_name "MODIFY" && py_eq_str status "COMPLETED"
  | _, _ => false
  end.

(** The POST for a record: to its callback URL, with its identifier and
    text. *)
Definition notification (record : pyval) : option (string * pyval) :=
  match image_attr record "callback_url", image_attr record "file_id",
        image_attr record "text" with
  | Ok (PStr url), Ok file_id, Ok text =>
      Some (url, PDict [("file_id", file_id); ("text", text)])
  | _, _, _ => None
  end.

(** A record that has what [make_callback] reads of it: an event name; for
    a MODIFY, the identifier and status of the new image; for a COMPLETED
    one, a string callback URL and the text. *)
Definition readable (record : pyval) : Prop :=
  exists event_name,
    getitem record (PStr "eventName") = Ok event_name /\
    (py_eq_str event_name "MODIFY" = true ->
     exists file_id status,
       image_attr record "file_id" = Ok file_id /\
       image_attr record "status" = Ok status /\
       (py_eq_str status "COMPLETED" = true ->
        is_Some (notification record))).

(** A block the comprehension of [process_file] and the join accept: it
    has a [BlockType], and a string [Text] when the type is LINE. *)
Definition block_ok (block : pyval) : Prop :=
  exists ty,
    getitem block (PStr "BlockType") = Ok ty /\
    (py_eq_str ty "LINE" = true -> is_Some (text_field block)).

(** * Reasoning about the monad *)

(** [wp m Q w]: run from [w], [m] ends (returning or raising) in a result
    and a world that satisfy [Q]. *)
Definition wp {A} (m : M A) (Q : res A -> World -> Prop) (w : World) : Prop :=
  Q (m w).1 (m w).2.

Section WpRules.
Context {A B : Type}.
Implicit Types (w : World) (e : exn).

Lemma wp_ret (a : A) (Q : res A -> World -> Prop) w :
  Q (Ok a) w -> wp (mret a) Q w.
Proof. exact id. Qed.

Lemma wp_raise e (Q : res A -> World -> Prop) w :
  Q (Raise e) w -> wp (raise e) Q w.
Proof. exact id. Qed.

Lemma wp_lift (r : res A) (Q : res A -> World -> Prop) w :
  Q r w -> wp (lift r) Q w.
Proof. exact id. Qed.

Lemma wp_bind (m : M A) (f : A -> M B) (Q : res B -> World -> Prop) w :
  wp m (fun r w' => match r with
                    | Ok a => wp (f a) Q w'
                    | Raise e => Q (Raise e) w'
                    end) w ->
  wp (m ≫= f) Q w.
Proof.
  unfold wp, mbind, M_bind. destruct (m w) as [[a|e] w']; exact id.
Qed.

Lemma wp_try_except (m : M A) (h : exn -> M A) (Q : res A -> World -> Prop) w :
  wp m (fun r w' => match r with
                    | Ok a => Q (Ok a) w'
                    | Raise e => wp (h e) Q w'
                    end) w ->
  wp (try_except m h) Q w.
Proof.
  unfold wp, try_except. destruct (m w) as [[a|e] w']; exact id.
Qed.

Lemma wp_service (act : M A) (Q : res A -> World -> Prop) w :
  (forall f w1, next_fault w = (f, w1) ->
     match f with
     | Some e => Q (Raise e) w1
     | None => wp act Q w1
     end) ->
  wp (service act) Q w.
Proof.
  intros Hq. unfold wp, service.
  destruct (next_fault w) as [f w1] eqn:Hn.
  specialize (Hq f w1 eq_refl). destruct f; exact Hq.
Qed.

Lemma wp_mono (m : M A) (Q Q' : res A -> World -> Prop) w :
  (forall r w', Q r w' -> Q' r w') -> wp m Q w -> wp m Q' w.
Proof. intros Himp. unfold wp. apply Himp. Qed.

End WpRules.

Lemma wp_logger lvl fmt args (Q : res unit -> World -> Prop) w :
  Q (Ok tt) (set_logs (logs w ++ [LogEntry lvl fmt args]) w) ->
  wp (logger lvl fmt args) Q w.
Proof. exact id. Qed.

(** A service call that is let through, or that fails, leaves everything
    but the list of faults as it was. *)
Lemma next_fault_fields w f w1 :
  next_fault w = (f, w1) ->
  files_table w1 = files_table w /\ s3_objects w1 = s3_objects w /\
  outbox w1 = outbox w /\ logs w1 = logs w /\ entropy w1 = entropy w.
Proof.
  unfold next_fault. destruct (faults w); intros [= <- <-]; done.
Qed.

Ltac fault_step :=
  let f := fresh "f" in
  let w1 := fresh "w" in
  let Hn := fresh "Hn" in
  intros f w1 Hn; apply next_fault_fields in Hn as (? & ? & ? & ? & ?);
  destruct f as [?e|].

Section Primitives.
Context `{Externals}.
Implicit Types (w : World) (e : exn).

Lemma wp_uuid4_str (Q : res string -> World -> Prop) w :
  Q (Ok (uuid4 (entropy w))) (set_entropy (S (entropy w)) w) ->
  wp uuid4_str Q w.
Proof. exact id. Qed.

Lemma wp_put_item_new (id st : string) (Q : res unit -> World -> Prop) w :
  (forall f w1, next_fault w = (f, w1) ->
     match f with
     | Some e => Q (Raise e) w1
     | None =>
         Q (Ok tt)
           (set_table (<[id := {["file_id" := id; "status" := st]}]>
                         (files_table w1)) w1)
     end) ->
  wp (put_item {["file_id" := id; "status" := st]}) Q w.
Proof.
  intros Hq. apply wp_service. intros f w1 Hn. specialize (Hq f w1 Hn).
  destruct f; [exact Hq|]. unfold wp. rewrite lookup_insert_eq. exact Hq.
Qed.

Lemma wp_put_object b k c (Q : res unit -> World -> Prop) w :
  (forall f w1, next_fault w = (f, w1) ->
     match f with
     | Some e => Q (Raise e) w1
     | None => Q (Ok tt) (set_s3 (<[(b, k) := c]> (s3_objects w1)) w1)
     end) ->
  wp (put_object b k c) Q w.
Proof.
  intros Hq. apply wp_service. intros f w1 Hn. specialize (Hq f w1 Hn).
  destruct f; exact Hq.
Qed.

Lemma wp_update_item key sets (Q : res unit -> World -> Prop) w :
  (forall f w1, next_fault w = (f, w1) ->
     match f with
     | Some e => Q (Raise e) w1
     | None =>
         match key with
         | PStr k =>
             Q (Ok tt)
               (set_table
                  (<[k := set_attrs sets
                            (default {["file_id" := k]} (files_table w1 !! k))]>
                     (files_table w1)) w1)
         | _ => Q (Raise (ClientError "ValidationException")) w1
         end
     end) ->
  wp (update_item key sets) Q w.
Proof.
  intros Hq. apply wp_service. intros f w1 Hn. specialize (Hq f w1 Hn).
  destruct f; [exact Hq|]. unfold wp. destruct key; exact Hq.
Qed.

Lemma wp_get_item key (Q : res (option item) -> World -> Prop) w :
  (forall f w1, next_fault w = (f, w1) ->
     match f with
     | Some e => Q (Raise e) w1
     | None =>
         match key with
         | PStr k => Q (Ok (files_table w1 !! k)) w1
         | _ => Q (Raise (ClientError "ValidationException")) w1
         end
     end) ->
  wp (get_item key) Q w.
Proof.
  intros Hq. apply wp_service. intros f w1 Hn. specialize (Hq f w1 Hn).
  destruct f; [exact Hq|]. unfold wp. destruct key; exact Hq.
Qed.

Lemma wp_get_object bucket key (Q : res (list byte) -> World -> Prop) w :
  (forall f w1, next_fault w = (f, w1) ->
     match f with
     | Some e => Q (Raise e) w1
     | None =>
         match bucket, key with
         | PStr b, PStr k =>
             match s3_objects w1 !! (b, k) with
             | Some content => Q (Ok content) w1
             | None => Q (Raise (ClientError "NoSuchKey")) w1
             end
         | _, _ => Q (Raise (ClientError "ParamValidationError")) w1
         end
     end) ->
  wp (get_object bucket key) Q w.
Proof.
  intros Hq. apply wp_service. intros f w1 Hn. specialize (Hq f w1 Hn).
  destruct f; [exact Hq|]. unfold wp.
  destruct bucket; try exact Hq. destruct key; try exact Hq.
  cbn. destruct (s3_objects w1 !! _); exact Hq.
Qed.

Lemma wp_textract_detect content (Q : res pyval -> World -> Prop) w :
  (forall f w1, next_fault w = (f, w1) ->
     match f with
     | Some e => Q (Raise e) w1
     | None => Q (Ok (detect_document_text content)) w1
     end) ->
  wp (textract_detect content) Q w.
Proof.
  intros Hq. apply wp_service. intros f w1 Hn. specialize (Hq f w1 Hn).
  destruct f; exact Hq.
Qed.

Lemma wp_requests_post url payload (Q : res Z -> World -> Prop) w :
  match url with
  | PStr u =>
      forall f w1,
        next_fault (set_outbox (outbox w ++ [(u, payload)]) w) = (f, w1) ->
        match f with
        | Some e => Q (Raise e) w1
        | None => Q (Ok (http_status (length (outbox w)) u payload)) w1
        end
  | _ => Q (Raise (RequestException "Invalid URL")) w
  end ->
  wp (requests_post url payload) Q w.
Proof.
  destruct url; try exact id.
  intros Hq. unfold requests_post, wp, service.
  destruct (next_fault _) as [f w1] eqn:Hn.
  specialize (Hq f w1 eq_refl). destruct f; exact Hq.
Qed.

End Primitives.

(** * How the two writing handlers end *)

Ltac table_back :=
  repeat match goal with Ht : files_table _ = _ |- _ => rewrite Ht end.

Section Outcomes.
Context `{Externals}.
Implicit Types (w : World) (e : exn).

Lemma uploaded_record (fid : string) :
  set_attrs [("status", "UPLOADED")] {["file_id" := fid; "status" := "UPLOADING"]}
  = ({["file_id" := fid; "status" := "UPLOADED"]} : item).
Proof.
  unfold set_attrs. cbn [fold_left fst snd].
  rewrite insert_insert_ne by done. by rewrite insert_singleton_eq.
Qed.

Lemma wp_create_file ev w :
  wp (create_file ev)
     (fun r w' => exists resp,
        r = Ok resp /\ (ingested ev w resp w' \/ ingest_failed w resp w')) w.
Proof.
  set (Q := fun (r : res response) w' => _).
  set (fid := uuid4 (entropy w)).
  assert (Hfail : forall e w1,
    files_table w1 = files_table w \/
    files_table w1 =
      <[fid := {["file_id" := fid; "status" := "UPLOADING"]}]> (files_table w) ->
    wp (logger ERROR "Error processing file upload: %s" [PStr (str_exn e)];;
        mret (mkResponse 500 (PDict [("error", PStr (str_exn e))]))) Q w1).
  { intros e w1 Ht. apply wp_bind, wp_logger, wp_ret.
    eexists; split; [reflexivity|]. right. split; [done|]. cbn. eauto. }
  apply wp_try_except. unfold create_file_try.
  apply wp_bind, wp_lift. destruct (py_json_loads' _) as [b|e] eqn:Hb;
    [|apply Hfail; auto].
  apply wp_bind, wp_lift. destruct (py_b64decode' _) as [c|e] eqn:Hc;
    [|apply Hfail; auto].
  apply wp_bind, wp_uuid4_str. fold fid.
  apply wp_bind, wp_put_item_new. fault_step; [apply Hfail; auto|].
  apply wp_bind, wp_logger.
  apply wp_bind, wp_put_object. fault_step;
    [apply Hfail; right; cbn -[sub] in *; congruence|].
  apply wp_bind, wp_logger.
  apply wp_bind, wp_update_item. fault_step;
    [apply Hfail; right; cbn -[sub] in *; congruence|].
  apply wp_bind, wp_logger, wp_ret. eexists; split; [reflexivity|]. left.
  unfold ingested. cbn -[set_attrs] in *. repeat split.
  - fold fid.
    table_back.
    rewrite lookup_insert_eq. cbn [default from_option]. unfold Datatypes.id.
    rewrite uploaded_record. apply insert_insert_eq.
  - exists b, c. repeat split; [exact Hb | exact Hc | fold fid; congruence].
Qed.

Lemma create_file_cases ev w :
  exists resp w', create_file ev w = (Ok resp, w') /\
    (ingested ev w resp w' \/ ingest_failed w resp w').
Proof.
  pose proof (wp_create_file ev w) as Hwp. unfold wp in Hwp.
  destruct (create_file ev w) as [r w']. cbn in Hwp.
  destruct Hwp as (resp & -> & Hr). eauto.
Qed.

Lemma wp_process_file ev w :
  wp (process_file ev)
     (fun r w' => exists resp,
        r = Ok resp /\ (extracted ev w resp w' \/ extract_failed w resp w')) w.
Proof.
  set (Q := fun (r : res response) w' => _).
  assert (Hfail : forall e w1,
    files_table w1 = files_table w ->
    wp (logger ERROR "Error processing file: %s" [PStr (str_exn e)];;
        mret (mkResponse 500 (PDict [("error", PStr (str_exn e))]))) Q w1).
  { intros e w1 Ht. apply wp_bind, wp_logger, wp_ret.
    eexists; split; [reflexivity|]. right. split; [done|]. cbn.
    split; [done|]. exists e. split; [done|]. apply last_snoc. }
  apply wp_try_except. unfold process_file_try.
  apply wp_bind, wp_logger.
  apply wp_bind, wp_lift.
  destruct ((Ok ev).[PStr "Records"].[PInt 0].[PStr "s3"].[PStr "bucket"]
              .[PStr "name"]) as [bucket|e] eqn:Hbucket; [|by apply Hfail].
  apply wp_bind, wp_lift.
  destruct ((Ok ev).[PStr "Records"].[PInt 0].[PStr "s3"].[PStr "object"]
              .[PStr "key"]) as [key|e] eqn:Hkey; [|by apply Hfail].
  apply wp_bind, wp_get_object. fault_step; [by apply Hfail|].
  destruct bucket as [| | |b| |]; try by apply Hfail.
  destruct key as [| | |k| |]; try by apply Hfail.
  destruct (s3_objects _ !! (b, k)) as [content|] eqn:Hobj; [|by apply Hfail].
  apply wp_bind, wp_textract_detect. fault_step;
    [apply Hfail; cbn -[sub] in *; congruence|].
  apply wp_bind, wp_lift.
  destruct ((Ok (detect_document_text content)).[PStr "Blocks"])
    as [blocks|e] eqn:Hblocks; [|apply Hfail; cbn -[sub] in *; congruence].
  apply wp_bind, wp_lift.
  destruct (py_iter blocks) as [items|e] eqn:Hitems;
    [|apply Hfail; cbn -[sub] in *; congruence].
  apply wp_bind, wp_lift.
  destruct (line_texts items) as [texts|e] eqn:Htexts;
    [|apply Hfail; cbn -[sub] in *; congruence].
  apply wp_bind, wp_lift.
  destruct (str_join " " texts) as [t|e] eqn:Ht;
    [|apply Hfail; cbn -[sub] in *; congruence].
  apply wp_bind, wp_update_item. fault_step;
    [apply Hfail; cbn -[sub] in *; congruence|].
  apply wp_ret. eexists; split; [reflexivity|]. left.
  exists b, k, content, blocks, items, texts, t. cbn -[set_attrs sub] in *.
  repeat split; try done.
  - unfold object_key_of. by rewrite Hkey.
  - congruence.
  - by table_back.
Qed.

End Outcomes.

(** * Loops and frames *)

Lemma wp_for_each {A} (f : A -> M unit) (I : World -> Prop) xs w :
  (forall x w1, x ∈ xs -> I w1 -> wp (f x) (fun _ w' => I w') w1) ->
  I w -> wp (for_each f xs) (fun _ w' => I w') w.
Proof.
  revert w. induction xs as [|x xs IH]; intros w Hf Hw.
  - exact Hw.
  - cbn [for_each]. apply wp_bind.
    eapply wp_mono; [|apply (Hf x w); [left | exact Hw]].
    intros [[]|e] w' Hw'; cbn beta iota; [|exact Hw'].
    apply IH; [|exact Hw']. intros y w1 Hy. apply Hf. by right.
Qed.

Lemma py_eq_str_true v lit : py_eq_str v lit = true -> v = PStr lit.
Proof.
  destruct v; try discriminate. cbn. intros Heq.
  apply String.eqb_eq in Heq. by subst.
Qed.

Ltac world_simpl :=
  cbn [files_table s3_objects outbox logs faults entropy
       set_table set_s3 set_outbox set_logs set_faults set_entropy] in *.

Section Frames.
Context `{Externals}.
Implicit Types (w : World) (e : exn).

(** What [make_callback] does for one record: it leaves the ledger and the
    bucket alone, and it issues at most one POST, to the record's
    [callback_url], when the record is a MODIFY whose new status is
    COMPLETED. *)
Lemma wp_callback_record record w :
  wp (callback_record record)
     (fun _ w' =>
        files_table w' = files_table w /\ s3_objects w' = s3_objects w /\
        (outbox w' = outbox w \/
         exists u file_id text,
           callback_url_of record = Some u /\
           (Ok record).[PStr "eventName"] = Ok (PStr "MODIFY") /\
           (Ok record).[PStr "dynamodb"].[PStr "NewImage"]
             .[PStr "status"].[PStr "S"] = Ok (PStr "COMPLETED") /\
           outbox w' =
             (outbox w ++ [(u, PDict [("file_id", file_id); ("text", text)])])%list)) w.
Proof.
  unfold callback_record.
  apply wp_bind, wp_lift.
  destruct ((Ok record).[PStr "eventName"]) as [event_name|e] eqn:Hname; [|auto].
  destruct (py_eq_str event_name "MODIFY") eqn:Hmodify; [|apply wp_ret; auto].
  apply py_eq_str_true in Hmodify as ->.
  apply wp_bind, wp_lift.
  destruct ((Ok record).[PStr "dynamodb"].[PStr "NewImage"])
    as [new_image|e] eqn:Himage; [|auto].
  apply wp_bind, wp_lift.
  destruct ((Ok new_image).[PStr "file_id"].[PStr "S"]) as [file_id|e]; [|auto].
  apply wp_bind, wp_lift.
  destruct ((Ok new_image).[PStr "status"].[PStr "S"]) as [status|e] eqn:Hstatus;
    [|auto].
  destruct (py_eq_str status "COMPLETED") eqn:Hcompleted; [|apply wp_ret; auto].
  apply py_eq_str_true in Hcompleted as ->.
  apply wp_bind, wp_lift.
  destruct ((Ok new_image).[PStr "callback_url"].[PStr "S"])
    as [callback_url|e] eqn:Hurl; [|auto].
  apply wp_bind, wp_lift.
  destruct ((Ok new_image).[PStr "text"].[PStr "S"]) as [text|e]; [|auto].
  apply wp_bind, wp_requests_post.
  destruct callback_url as [| | |u| |]; try (cbn; auto; fail).
  fault_step; [|apply wp_logger]; world_simpl;
    (split_and!; [congruence..|]); right; exists u, file_id, text;
    (split_and!; [|done|done|congruence]);
    unfold callback_url_of; by rewrite Himage, Hurl.
Qed.

Lemma wp_make_callback ev w :
  wp (make_callback ev)
     (fun _ w' =>
        files_table w' = files_table w /\ s3_objects w' = s3_objects w /\
        exists posts,
          outbox w' = (outbox w ++ posts)%list /\
          forall url payload, (url, payload) ∈ posts ->
            exists record file_id text,
              record ∈ records_of ev /\
              callback_url_of record = Some url /\
              (Ok record).[PStr "eventName"] = Ok (PStr "MODIFY") /\
              (Ok record).[PStr "dynamodb"].[PStr "NewImage"]
                .[PStr "status"].[PStr "S"] = Ok (PStr "COMPLETED") /\
              payload = PDict [("file_id", file_id); ("text", text)]) w.
Proof.
  assert (Hnone : forall w1 : World,
    files_table w1 = files_table w -> s3_objects w1 = s3_objects w ->
    outbox w1 = outbox w ->
    files_table w1 = files_table w /\ s3_objects w1 = s3_objects w /\
        exists posts,
          outbox w1 = (outbox w ++ posts)%list /\
          forall url payload, (url, payload) ∈ posts ->
            exists record file_id text,
              record ∈ records_of ev /\
              callback_url_of record = Some url /\
              (Ok record).[PStr "eventName"] = Ok (PStr "MODIFY") /\
              (Ok record).[PStr "dynamodb"].[PStr "NewImage"]
                .[PStr "status"].[PStr "S"] = Ok (PStr "COMPLETED") /\
              payload = PDict [("file_id", file_id); ("text", text)]).
  { intros w1 Ht Hs Ho. split_and!; [done..|]. exists [].
    split; [by rewrite app_nil_r|]. intros url payload Hin. by apply elem_of_nil in Hin. }
  unfold make_callback.
  apply wp_bind, wp_lift.
  destruct ((Ok ev).[PStr "Records"]) as [records|e] eqn:Hrecords; [|by apply Hnone].
  apply wp_bind, wp_lift.
  destruct (py_iter records) as [items|e] eqn:Hitems; [|by apply Hnone].
  assert (Hrecs : records_of ev = items).
  { unfold records_of. by rewrite Hrecords, Hitems. }
  rewrite Hrecs. clear Hnone.
  apply wp_for_each.
  - intros record w1 Hin (Ht & Hs & posts & Ho & Hposts).
    eapply wp_mono; [|apply wp_callback_record].
    intros _ w' (Ht' & Hs' & Ho'). split_and!; [congruence..|].
    destruct Ho' as [Ho'|(u & file_id & text & Hu & Hname & Hst & Ho')].
    + exists posts. split; [congruence|done].
    + exists (posts ++ [(u, PDict [("file_id", file_id); ("text", text)])])%list.
      split; [rewrite Ho', Ho; by rewrite <- app_assoc|].
      intros url payload [Hin'|Hin']%elem_of_app; [by apply Hposts|].
      apply list_elem_of_singleton in Hin' as [= -> ->].
      exists record, file_id, text. done.
  - split_and!; [done..|]. exists []. split; [by rewrite app_nil_r|].
    intros url payload Hin. by apply elem_of_nil in Hin.
Qed.

Lemma wp_get_file ev w :
  wp (get_file ev)
     (fun _ w' => files_table w' = files_table w /\
                  s3_objects w' = s3_objects w /\ outbox w' = outbox w) w.
Proof.
  unfold get_file.
  apply wp_bind, wp_lift.
  destruct ((Ok ev).[PStr "pathParameters"].[PStr "file_id"]) as [file_id|e];
    [|done].
  apply wp_bind, wp_get_item. fault_step; [done|].
  destruct file_id as [| | |k| |]; try done.
  destruct (files_table _ !! k) as [it|]; [|by apply wp_ret].
  destruct (decide (it = ∅)); [by apply wp_ret|].
  destruct (it !! "status"); [by apply wp_ret | by apply wp_raise].
Qed.

End Frames.

(** * Computations that never read the ledger *)

Lemma same_but_table_refl w : same_but_table w w.
Proof. by unfold same_but_table. Qed.

Lemma same_but_table_set t w : same_but_table (set_table t w) w.
Proof. by unfold same_but_table. Qed.

Section Blind.
Context {A B : Type}.

Lemma blind_ret (a : A) : ledger_blind (mret a).
Proof. intros w1 w2 Hw. by split. Qed.

Lemma blind_raise e : ledger_blind (@raise A e).
Proof. intros w1 w2 Hw. by split. Qed.

Lemma blind_lift (r : res A) : ledger_blind (lift r).
Proof. intros w1 w2 Hw. by split. Qed.

Lemma blind_bind (m : M A) (f : A -> M B) :
  ledger_blind m -> (forall a, ledger_blind (f a)) -> ledger_blind (m ≫= f).
Proof.
  intros Hm Hf w1 w2 Hw. unfold mbind, M_bind.
  destruct (Hm w1 w2 Hw) as [Hr Hw'].
  destruct (m w1) as [r1 w1'], (m w2) as [r2 w2']. cbn in Hr, Hw'. subst r2.
  destruct r1 as [a|e]; [by apply Hf | by split].
Qed.

Lemma blind_try_except (m : M A) (h : exn -> M A) :
  ledger_blind m -> (forall e, ledger_blind (h e)) ->
  ledger_blind (try_except m h).
Proof.
  intros Hm Hh w1 w2 Hw. unfold try_except.
  destruct (Hm w1 w2 Hw) as [Hr Hw'].
  destruct (m w1) as [r1 w1'], (m w2) as [r2 w2']. cbn in Hr, Hw'. subst r2.
  destruct r1 as [a|e]; [by split | by apply Hh].
Qed.

Lemma blind_service (act : M A) : ledger_blind act -> ledger_blind (service act).
Proof.
  intros Hact w1 w2 Hw. unfold service, next_fault.
  pose proof Hw as (Hs & Ho & Hl & Hf & He). rewrite Hf.
  destruct (faults w2) as [|[e|] fs]; [by apply Hact|by split|].
  by apply Hact.
Qed.

End Blind.

Lemma blind_logger lvl fmt args : ledger_blind (logger lvl fmt args).
Proof.
  intros w1 w2 (Hs & Ho & Hl & Hf & He). split; [done|].
  unfold same_but_table. cbn. by rewrite Hl.
Qed.

Section BlindHandlers.
Context `{Externals}.

Lemma blind_update_item key sets : ledger_blind (update_item key sets).
Proof.
  apply blind_service. intros w1 w2 Hw. by destruct key.
Qed.

Lemma blind_get_object bucket key : ledger_blind (get_object bucket key).
Proof.
  apply blind_service. intros w1 w2 Hw.
  destruct bucket; try done. destruct key; try done.
  destruct Hw as (Hs & Hw). rewrite Hs.
  by destruct (s3_objects w2 !! _).
Qed.

Lemma blind_textract_detect content : ledger_blind (textract_detect content).
Proof. apply blind_service. intros w1 w2 Hw. by split. Qed.

(** [process_file] never reads the ledger. *)
Lemma blind_process_file ev : ledger_blind (process_file ev).
Proof.
  apply blind_try_except.
  - unfold process_file_try.
    repeat first
      [ apply blind_bind; [|intros ?]
      | apply blind_logger | apply blind_lift | apply blind_ret
      | apply blind_get_object | apply blind_textract_detect
      | apply blind_update_item ].
  - intros e. apply blind_bind; [apply blind_logger|]. intros _. apply blind_ret.
Qed.

End BlindHandlers.

(** * The comprehension against the wording of the specification *)

Lemma line_texts_fields items : forall texts ss,
  line_texts items = Ok texts -> all_str texts = Ok ss ->
  ss = line_text_fields items /\
  Forall (fun b => is_Some (text_field b)) (filter (fun b => is_line b = true) items).
Proof.
  unfold line_text_fields.
  induction items as [|item rest IH]; intros texts ss Htexts Hss.
  - injection Htexts as <-. injection Hss as <-. by split.
  - cbn [line_texts] in Htexts.
    destruct (getitem item (PStr "BlockType")) as [ty|e] eqn:Hty; [|done].
    destruct (py_eq_str ty "LINE") eqn:Hline.
    + assert (Hil : is_line item = true) by (unfold is_line; by rewrite Hty).
      destruct (getitem item (PStr "Text")) as [t|e] eqn:Ht; [|done].
      destruct (line_texts rest) as [ts|e]; [|done].
      injection Htexts as <-. cbn [all_str] in Hss.
      destruct t as [| | |s| |]; try done.
      assert (Htf : text_field item = Some s) by (unfold text_field; by rewrite Ht).
      destruct (all_str ts) as [ss'|e] eqn:Hts; [|done]. injection Hss as <-.
      destruct (IH ts ss' eq_refl Hts) as [-> Hall].
      rewrite filter_cons_True by done.
      cbn -[text_field is_line]. rewrite Htf. split; [done|].
      constructor; [by rewrite Htf | done].
    + rewrite filter_cons_False; [by apply (IH texts)|].
      unfold is_line. rewrite Hty. by rewrite Hline.
Qed.

(** * The properties of the specification, on the handlers *)

Section Properties.
Context `{Externals}.
Implicit Types (w : World) (e : exn).

Lemma run_of_wp {A} (m : M A) (Q : res A -> World -> Prop) w r w' :
  wp m Q w -> m w = (r, w') -> Q r w'.
Proof. unfold wp. intros Hq Hrun. by rewrite Hrun in Hq. Qed.

Lemma make_callback_table ev w :
  files_table (make_callback ev w).2 = files_table w.
Proof. apply (wp_make_callback ev w). Qed.

Lemma get_file_table ev w : files_table (get_file ev w).2 = files_table w.
Proof. apply (wp_get_file ev w). Qed.

(** C1 (amended).  [create_file] always returns.  With 200 the decoded
    content of the request is in the bucket under the new identifier and
    the record of that identifier is UPLOADED.  With 500 the ledger is as
    before, or it holds the record of the new identifier in UPLOADING, with
    no other attribute than [file_id] and [status]. *)
Theorem create_file_uploaded_or_left_uploading ev w :
  exists resp w',
    create_file ev w = (Ok resp, w') /\
    ((statusCode resp = 200 /\
      state_of w' (uuid4 (entropy w)) = Some "UPLOADED" /\
      exists b content,
        py_json_loads' (Ok ev).[PStr "body"] = Ok b /\
        py_b64decode' (Ok b).[PStr "file"] = Ok content /\
        s3_objects w' !! (BUCKET_NAME, uuid4 (entropy w)) = Some content)
     \/
     (statusCode resp = 500 /\
      (files_table w' = files_table w \/
       files_table w' =
         <[uuid4 (entropy w) :=
             {["file_id" := uuid4 (entropy w); "status" := "UPLOADING"]}]>
           (files_table w)))).
Proof.
  destruct (create_file ev w) as [r w'] eqn:Hrun.
  destruct (run_of_wp _ _ _ _ _ (wp_create_file ev w) Hrun)
    as (resp & -> & [Hok|Hfail]); exists resp, w'; (split; [done|]).
  - left. destruct Hok as (Hcode & _ & Ht & b & content & Hb & Hc & Hs).
    split_and!; [done| |].
    + unfold state_of. rewrite Ht, lookup_insert_eq. cbn.
      by rewrite lookup_insert_ne.
    + exists b, content. split_and!; [done..|].
      by rewrite Hs, lookup_insert_eq.
  - right. destruct Hfail as (Hcode & _ & Ht). done.
Qed.


(** C4 (amended).  Whatever the answer to the POST, [make_callback] writes
    nothing to the ledger: no record gets a [notified] or another state. *)
Theorem make_callback_never_writes_ledger ev w :
  files_table (make_callback ev w).2 = files_table w /\
  forall k,
    attr_of (make_callback ev w).2 k "notified" = attr_of w k "notified" /\
    state_of (make_callback ev w).2 k = state_of w k.
Proof.
  split; [apply make_callback_table|]. intros k.
  unfold attr_of, state_of. by rewrite make_callback_table.
Qed.

Lemma exec_spared c w k :
  aims_at c w k = false -> files_table (exec c w) !! k = files_table w !! k.
Proof.
  destruct c as [ev|ev|ev|ev]; cbn [aims_at exec]; intros Haim.
  - apply bool_decide_eq_false in Haim.
    destruct (create_file ev w) as [r w'] eqn:Hrun.
    destruct (run_of_wp _ _ _ _ _ (wp_create_file ev w) Hrun)
      as (resp & -> & [Hok|Hfail]); cbn [snd].
    + destruct Hok as (_ & _ & -> & _). by rewrite lookup_insert_ne.
    + destruct Hfail as (_ & _ & [-> | ->]); [done|].
      by rewrite lookup_insert_ne.
  - apply bool_decide_eq_false in Haim.
    destruct (process_file ev w) as [r w'] eqn:Hrun.
    destruct (run_of_wp _ _ _ _ _ (wp_process_file ev w) Hrun)
      as (resp & -> & [Hok|Hfail]); cbn [snd].
    + destruct Hok as (b & k' & content & blocks & items & texts & t
                       & _ & Hkey & _ & _ & _ & _ & _ & _ & ->).
      rewrite lookup_insert_ne; [done|]. congruence.
    + by destruct Hfail as (_ & -> & _).
  - by rewrite make_callback_table.
  - by rewrite get_file_table.
Qed.

(** The handlers keep the ledger well formed: the records that [get_file]
    finds have a status. *)
Lemma exec_well_formed c w :
  well_formed (files_table w) -> well_formed (files_table (exec c w)).
Proof.
  intros Hwf.
  assert (Hins : forall k0 (it0 : item),
            it0 !! "file_id" = Some k0 -> is_Some (it0 !! "status") ->
            well_formed (<[k0 := it0]> (files_table w))).
  { intros k0 it0 Hid Hst k it.
    destruct (decide (k0 = k)) as [->|Hne].
    - rewrite lookup_insert_eq. by intros [= <-].
    - rewrite lookup_insert_ne by done. apply Hwf. }
  destruct c as [ev|ev|ev|ev]; cbn [exec].
  - destruct (create_file ev w) as [r w'] eqn:Hrun.
    destruct (run_of_wp _ _ _ _ _ (wp_create_file ev w) Hrun)
      as (resp & -> & [Hok|Hfail]); cbn [snd].
    + destruct Hok as (_ & _ & -> & _).
      apply Hins; [by rewrite lookup_insert_eq|].
      rewrite lookup_insert_ne by done. by rewrite lookup_singleton_eq.
    + destruct Hfail as (_ & _ & [-> | ->]); [done|].
      apply Hins; [by rewrite lookup_insert_eq|].
      rewrite lookup_insert_ne by done. by rewrite lookup_singleton_eq.
  - destruct (process_file ev w) as [r w'] eqn:Hrun.
    destruct (run_of_wp _ _ _ _ _ (wp_process_file ev w) Hrun)
      as (resp & -> & [Hok|Hfail]); cbn [snd].
    + destruct Hok as (b & k & content & blocks & items & texts & t
                       & _ & _ & _ & _ & _ & _ & _ & _ & ->).
      unfold set_attrs. cbn [fold_left fst snd].
      apply Hins.
      * rewrite !lookup_insert_ne by done.
        destruct (files_table w !! k) as [old|] eqn:Hold; cbn.
        -- by apply (Hwf k old).
        -- by rewrite lookup_singleton_eq.
      * rewrite lookup_insert_ne by done. by rewrite lookup_insert_eq.
    + by destruct Hfail as (_ & -> & _).
  - by rewrite make_callback_table.
  - by rewrite get_file_table.
Qed.

Lemma run_well_formed cs w :
  well_formed (files_table w) -> well_formed (files_table (run cs w)).
Proof.
  revert w. induction cs as [|c cs IH]; intros w Hwf; [done|].
  unfold run. cbn [fold_left]. apply IH. by apply exec_well_formed.
Qed.

(** C2 (amended).  Through any sequence of handler invocations of which
    none is a [process_file] for the object key [k] and none is a
    [create_file] that draws [k], the record of [k] stays as it is, state
    and text included, whatever its state.  A [process_file] for [k] that
    returns 200 leaves [k] in state PROCESSED. *)
Theorem record_changes_only_when_aimed_at k :
  (forall cs w,
     spared k cs w = true ->
     files_table (run cs w) !! k = files_table w !! k /\
     state_of (run cs w) k = state_of w k /\
     attr_of (run cs w) k "text" = attr_of w k "text") /\
  (forall ev w resp w',
     object_key_of ev = Some k ->
     process_file ev w = (Ok resp, w') -> statusCode resp = 200 ->
     state_of w' k = Some "PROCESSED").
Proof.
  split.
  - assert (Hrec : forall cs w, spared k cs w = true ->
              files_table (run cs w) !! k = files_table w !! k).
    { induction cs as [|c cs IH]; intros w Hsp; [done|].
      cbn [spared] in Hsp. apply andb_true_iff in Hsp as [Haim Hsp].
      apply negb_true_iff in Haim.
      unfold run. cbn [fold_left]. fold (run cs (exec c w)).
      rewrite (IH _ Hsp). by apply exec_spared. }
    intros cs w Hsp. specialize (Hrec cs w Hsp).
    unfold state_of, attr_of. by rewrite Hrec.
  - intros ev w resp w' Hkey Hrun Hcode.
    destruct (run_of_wp _ _ _ _ _ (wp_process_file ev w) Hrun)
      as (resp' & [= <-] & [Hok|Hfail]).
    + destruct Hok as (b & k' & content & blocks & items & texts & t
                       & _ & Hkey' & _ & _ & _ & _ & _ & _ & Ht).
      assert (k' = k) as -> by congruence.
      unfold state_of. rewrite Ht, lookup_insert_eq. cbn.
      rewrite lookup_insert_ne by done. by rewrite lookup_insert_eq.
    + destruct Hfail as (Hcode' & _). congruence.
Qed.


(** C7 (amended).  [process_file] does not read the state of the document
    and its write has no condition.  When it returns 200, the record of the
    object key has the new status and text set over whatever it was (a
    record that did not exist is created), and from any other content [t]
    of the ledger the same invocation returns the same answer and makes the
    same write. *)
Theorem process_file_write_is_unconditional ev w resp w' :
  process_file ev w = (Ok resp, w') ->
  statusCode resp = 200 ->
  exists k text,
    object_key_of ev = Some k /\
    files_table w' =
      <[k := set_attrs [("status", "PROCESSED"); ("text", text)]
               (default {["file_id" := k]} (files_table w !! k))]>
        (files_table w) /\
    forall t, exists w'',
      process_file ev (set_table t w) = (Ok resp, w'') /\
      files_table w'' =
        <[k := set_attrs [("status", "PROCESSED"); ("text", text)]
                 (default {["file_id" := k]} (t !! k))]> t.
Proof.
  intros Hrun Hcode.
  destruct (run_of_wp _ _ _ _ _ (wp_process_file ev w) Hrun)
    as (resp' & [= <-] & [Hok|Hfail]);
    [|destruct Hfail as (Hcode' & _); congruence].
  destruct Hok as (b & k & content & blocks & items & texts & text
                   & Hb & Hkey & Hobj & Hblocks & Hitems & Htexts & Htext
                   & Hresp & Ht).
  exists k, text. split_and!; [done..|]. intros t.
  destruct (process_file ev (set_table t w)) as [r w''] eqn:Hrun'.
  destruct (blind_process_file ev (set_table t w) w (same_but_table_set t w))
    as [Hsame _].
  rewrite Hrun, Hrun' in Hsame. cbn [fst] in Hsame. subst r.
  exists w''. split; [done|].
  destruct (run_of_wp _ _ _ _ _ (wp_process_file ev (set_table t w)) Hrun')
    as (resp' & [= <-] & [Hok|Hfail]);
    [|destruct Hfail as (Hcode' & _); congruence].
  destruct Hok as (b' & k' & content' & blocks' & items' & texts' & text'
                   & Hb' & Hkey' & Hobj' & Hblocks' & Hitems' & Htexts'
                   & Htext' & _ & Ht').
  cbn [s3_objects files_table set_table] in Hobj', Ht'.
  assert (b' = b) as -> by congruence.
  assert (k' = k) as -> by congruence.
  assert (content' = content) as -> by congruence.
  assert (blocks' = blocks) as -> by congruence.
  assert (items' = items) as -> by congruence.
  assert (texts' = texts) as -> by congruence.
  assert (text' = text) as -> by congruence.
  done.
Qed.




End Properties.

(** * Further properties of the handlers *)

Lemma next_fault_nil w : faults w = [] -> next_fault w = (None, w).
Proof. unfold next_fault. by intros ->. Qed.

(** ** The comprehension and the join *)

Lemma str_join_all_str sep texts t :
  str_join sep texts = Ok t -> exists ss, all_str texts = Ok ss.
Proof. unfold str_join. destruct (all_str texts); [eauto|done]. Qed.

Lemma extraction_iff_blocks_ok items :
  (exists texts t, line_texts items = Ok texts /\ str_join " " texts = Ok t)
  <-> Forall block_ok items.
Proof.
  split.
  - intros (texts & t & Htexts & Ht).
    apply str_join_all_str in Ht as [ss Hss]. clear t.
    revert texts ss Htexts Hss.
    induction items as [|item rest IH]; intros texts ss Htexts Hss; [done|].
    cbn [line_texts] in Htexts.
    destruct (getitem item (PStr "BlockType")) as [ty|e] eqn:Hty; [|done].
    destruct (py_eq_str ty "LINE") eqn:Hline.
    + destruct (getitem item (PStr "Text")) as [tx|e] eqn:Htx; [|done].
      destruct (line_texts rest) as [ts|e]; [|done].
      injection Htexts as <-. cbn [all_str] in Hss.
      destruct tx as [| | |s| |]; try done.
      destruct (all_str ts) as [ss'|e] eqn:Hts; [|done].
      constructor; [|by apply (IH ts ss')].
      exists ty. split; [done|]. intros _. unfold text_field.
      rewrite Htx. by eexists.
    + constructor; [|by apply (IH texts ss)].
      exists ty. split; [done|]. by rewrite Hline.
  - induction 1 as [|item rest (ty & Hty & Htext) _ (texts & t & Htexts & Ht)].
    + by exists [], EmptyString.
    + apply str_join_all_str in Ht as [ss Hss].
      cbn [line_texts]. rewrite Hty, Htexts.
      destruct (py_eq_str ty "LINE"); [|exists texts; eexists; split; [done|];
        unfold str_join; by rewrite Hss].
      destruct (Htext eq_refl) as [s Hs]. unfold text_field in Hs.
      destruct (getitem item (PStr "Text")) as [[| | |s'| |]|e]; try done.
      exists (PStr s' :: texts). eexists. split; [done|].
      unfold str_join. cbn [all_str]. by rewrite Hss.
Qed.

(** X6.  The comprehension of [process_file] followed by the join succeeds
    exactly on the lists of blocks that all have a [BlockType], with a
    string [Text] on those of type LINE; a block of another type needs no
    [Text]. *)
Theorem text_extraction_succeeds_iff items :
  (exists texts t, line_texts items = Ok texts /\ str_join " " texts = Ok t)
  <-> Forall block_ok items.
Proof. apply extraction_iff_blocks_ok. Qed.

Section Further.
Context `{Externals}.
Implicit Types (w : World) (e : exn).

(** ** What the handlers leave alone *)

Lemma wp_process_file_frame ev w :
  wp (process_file ev)
     (fun _ w' => s3_objects w' = s3_objects w /\ outbox w' = outbox w /\
                  entropy w' = entropy w) w.
Proof.
  assert (Hfail : forall e w1,
    s3_objects w1 = s3_objects w -> outbox w1 = outbox w ->
    entropy w1 = entropy w ->
    wp (logger ERROR "Error processing file: %s" [PStr (str_exn e)];;
        mret (mkResponse 500 (PDict [("error", PStr (str_exn e))])))
       (fun _ w' => s3_objects w' = s3_objects w /\ outbox w' = outbox w /\
                    entropy w' = entropy w) w1).
  { intros e w1 Hs Ho He. by apply wp_bind, wp_logger, wp_ret. }
  apply wp_try_except. unfold process_file_try.
  apply wp_bind, wp_logger.
  apply wp_bind, wp_lift. destruct (sub _ _) as [bucket|e]; [|by apply Hfail].
  apply wp_bind, wp_lift. destruct (sub _ _) as [key|e]; [|by apply Hfail].
  apply wp_bind, wp_get_object. fault_step; world_simpl; [by apply Hfail|].
  destruct bucket as [| | |b| |]; try by apply Hfail.
  destruct key as [| | |k| |]; try by apply Hfail.
  destruct (s3_objects _ !! (b, k)) as [content|]; [|by apply Hfail].
  apply wp_bind, wp_textract_detect. fault_step; world_simpl;
    [apply Hfail; congruence|].
  apply wp_bind, wp_lift. destruct (sub _ _) as [blocks|e];
    [|apply Hfail; congruence].
  apply wp_bind, wp_lift. destruct (py_iter blocks) as [items|e];
    [|apply Hfail; congruence].
  apply wp_bind, wp_lift. destruct (line_texts items) as [texts|e];
    [|apply Hfail; congruence].
  apply wp_bind, wp_lift. destruct (str_join " " texts) as [t|e];
    [|apply Hfail; congruence].
  apply wp_bind, wp_update_item. fault_step; world_simpl;
    [apply Hfail; congruence|].
  apply wp_ret. world_simpl. split_and!; congruence.
Qed.

Lemma wp_create_file_frame ev w :
  wp (create_file ev)
     (fun _ w' =>
        outbox w' = outbox w /\
        (entropy w' = entropy w \/ entropy w' = S (entropy w)) /\
        (s3_objects w' = s3_objects w \/
         exists content,
           s3_objects w' =
             <[(BUCKET_NAME, uuid4 (entropy w)) := content]> (s3_objects w))) w.
Proof.
  assert (Hfail : forall e w1,
    outbox w1 = outbox w ->
    (entropy w1 = entropy w \/ entropy w1 = S (entropy w)) ->
    (s3_objects w1 = s3_objects w \/
     exists content,
       s3_objects w1 =
         <[(BUCKET_NAME, uuid4 (entropy w)) := content]> (s3_objects w)) ->
    wp (logger ERROR "Error processing file upload: %s" [PStr (str_exn e)];;
        mret (mkResponse 500 (PDict [("error", PStr (str_exn e))])))
       (fun _ w' =>
        outbox w' = outbox w /\
        (entropy w' = entropy w \/ entropy w' = S (entropy w)) /\
        (s3_objects w' = s3_objects w \/
         exists content,
           s3_objects w' =
             <[(BUCKET_NAME, uuid4 (entropy w)) := content]> (s3_objects w))) w1).
  { intros e w1 Ho He Hs. by apply wp_bind, wp_logger, wp_ret. }
  apply wp_try_except. unfold create_file_try.
  apply wp_bind, wp_lift. destruct (py_json_loads' _) as [b|e];
    [|apply Hfail; auto].
  apply wp_bind, wp_lift. destruct (py_b64decode' _) as [c|e];
    [|apply Hfail; auto].
  apply wp_bind, wp_uuid4_str.
  apply wp_bind, wp_put_item_new. fault_step; world_simpl;
    [apply Hfail; auto|].
  apply wp_bind, wp_logger.
  apply wp_bind, wp_put_object. fault_step; world_simpl;
    [apply Hfail; [congruence|right; congruence|left; congruence]|].
  apply wp_bind, wp_logger.
  apply wp_bind, wp_update_item. fault_step; world_simpl.
  - apply Hfail; [congruence|right; congruence|].
    right. exists c. congruence.
  - apply wp_bind, wp_logger, wp_ret. world_simpl.
    split_and!; [congruence|right; congruence|].
    right. exists c. congruence.
Qed.


(** X2.  [process_file] touches nothing but the status and
    the text of the record of the object key: the bucket and the outbox
    are as before, every other record is as before, and on every record
    each attribute other than [status], [text] and [file_id] is as
    before. *)
Theorem process_file_touches_only_status_and_text ev w :
  s3_objects (process_file ev w).2 = s3_objects w /\
  outbox (process_file ev w).2 = outbox w /\
  (forall k, object_key_of ev <> Some k ->
     files_table (process_file ev w).2 !! k = files_table w !! k) /\
  (forall k attr,
     attr <> "status" -> attr <> "text" -> attr <> "file_id" ->
     attr_of (process_file ev w).2 k attr = attr_of w k attr).
Proof.
  destruct (wp_process_file_frame ev w) as (Hs & Ho & _).
  split; [done|]. split; [done|].
  destruct (process_file ev w) as [r w'] eqn:Hrun. cbn [snd].
  destruct (run_of_wp _ _ _ _ _ (wp_process_file ev w) Hrun)
    as (resp & -> & [Hok|Hfail]).
  - destruct Hok as (b & k0 & content & blocks & items & texts & t
                     & _ & Hkey & _ & _ & _ & _ & _ & _ & Ht).
    split.
    + intros k Hne. rewrite Ht, lookup_insert_ne; [done|congruence].
    + intros k attr Hst Htx Hid. unfold attr_of. rewrite Ht.
      destruct (decide (k0 = k)) as [->|Hne];
        [|by rewrite lookup_insert_ne].
      rewrite lookup_insert_eq. unfold set_attrs. cbn.
      rewrite !lookup_insert_ne by done.
      destruct (files_table w !! k) as [old|]; cbn; [done|].
      by rewrite lookup_singleton_ne.
  - destruct Hfail as (_ & Ht & _). split.
    + intros k _. by rewrite Ht.
    + intros k attr _ _ _. unfold attr_of. by rewrite Ht.
Qed.

(** X1.  [create_file] touches nothing but the new document:
    the outbox is as before, every object of S3 other than the one of the
    new identifier in [BUCKET_NAME] is as before, and so is every record
    other than the one of the new identifier. *)
Theorem create_file_touches_only_the_new_document request w :
  outbox (create_file request w).2 = outbox w /\
  (forall bucket key,
     (bucket, key) <> (BUCKET_NAME, uuid4 (entropy w)) ->
     s3_objects (create_file request w).2 !! (bucket, key)
       = s3_objects w !! (bucket, key)) /\
  (forall k, k <> uuid4 (entropy w) ->
     files_table (create_file request w).2 !! k = files_table w !! k).
Proof.
  destruct (wp_create_file_frame request w) as (Ho & _ & Hs).
  split; [done|]. split.
  - intros bucket key Hne. destruct Hs as [-> | [content ->]]; [done|].
    by rewrite lookup_insert_ne.
  - intros k Hne.
    destruct (create_file request w) as [r w'] eqn:Hrun. cbn [snd].
    destruct (run_of_wp _ _ _ _ _ (wp_create_file request w) Hrun)
      as (resp & -> & [Hok|Hfail]).
    + destruct Hok as (_ & _ & -> & _). by rewrite lookup_insert_ne.
    + destruct Hfail as (_ & _ & [-> | ->]); [done|].
      by rewrite lookup_insert_ne.
Qed.

(** ** [get_file] *)

(** The runs of [get_file], case by case. *)
Lemma get_file_run ev w :
  get_file ev w =
  match (Ok ev).[PStr "pathParameters"].[PStr "file_id"] with
  | Raise e => (Raise e, w)
  | Ok file_id =>
      match next_fault w with
      | (Some e, w1) => (Raise e, w1)
      | (None, w1) =>
          match file_id with
          | PStr id =>
              match files_table w !! id with
              | Some it =>
                  if decide (it = ∅) then (Ok not_found, w1)
                  else
                    match it !! "status" with
                    | Some status =>
                        (Ok (mkResponse 200
                               (PDict [("file_id", PStr id);
                                       ("status", PStr status);
                                       ("text", item_get it "text")])), w1)
                    | None => (Raise (KeyError "status"), w1)
                    end
              | None => (Ok not_found, w1)
              end
          | _ => (Raise (ClientError "ValidationException"), w1)
          end
      end
  end.
Proof.
  unfold get_file, mbind, M_bind, lift.
  destruct (sub _ _) as [file_id|e]; [|done].
  unfold get_item, service.
  destruct (next_fault w) as [[e|] w1] eqn:Hn; [done|].
  apply next_fault_fields in Hn as (-> & _).
  destruct file_id as [| | |id| |]; try done.
  destruct (files_table w !! id) as [it|]; [|done].
  destruct (decide (it = ∅)); [done|]. by destruct (it !! "status").
Qed.



(** ** Runs that go through *)

Lemma process_file_goes_through ev w b k content blocks items :
  (Ok ev).[PStr "Records"].[PInt 0].[PStr "s3"]
    .[PStr "bucket"].[PStr "name"] = Ok (PStr b) ->
  object_key_of ev = Some k ->
  faults w = [] ->
  s3_objects w !! (b, k) = Some content ->
  (Ok (detect_document_text content)).[PStr "Blocks"] = Ok blocks ->
  py_iter blocks = Ok items ->
  Forall block_ok items ->
  (process_file ev w).1 =
    Ok (mkResponse 200
          (PDict [("file_id", PStr k); ("status", PStr "PROCESSED")])) /\
  state_of (process_file ev w).2 k = Some "PROCESSED" /\
  attr_of (process_file ev w).2 k "text"
    = Some (String.concat " " (line_text_fields items)).
Proof.
  intros Hb Hkey Hf Hobj Hblocks Hitems Hok.
  apply extraction_iff_blocks_ok in Hok as (texts & t & Htexts & Ht).
  assert (Hkey' : (Ok ev).[PStr "Records"].[PInt 0].[PStr "s3"]
                    .[PStr "object"].[PStr "key"] = Ok (PStr k)).
  { unfold object_key_of in Hkey.
    destruct ((Ok ev).[PStr "Records"].[PInt 0].[PStr "s3"]
                .[PStr "object"].[PStr "key"]) as [[| | |k'| |]|e];
      try done. congruence. }
  assert (Hrun : process_file ev w =
    (Ok (mkResponse 200
           (PDict [("file_id", PStr k); ("status", PStr "PROCESSED")])),
     set_table
       (<[k := set_attrs [("status", "PROCESSED"); ("text", t)]
                 (default {["file_id" := k]} (files_table w !! k))]>
          (files_table w))
       (set_logs (logs w ++ [LogEntry INFO "Received event: %s" [ev]]) w))).
  { unfold process_file, try_except, process_file_try, mbind, M_bind, lift,
      logger.
    rewrite Hb, Hkey'.
    unfold get_object, service. rewrite next_fault_nil by exact Hf.
    cbn [s3_objects set_logs]. rewrite Hobj.
    unfold textract_detect, service. rewrite next_fault_nil by exact Hf.
    rewrite Hblocks, Hitems, Htexts, Ht.
    unfold update_item, service. by rewrite next_fault_nil by exact Hf. }
  rewrite Hrun. cbn [fst snd]. split; [done|].
  unfold str_join in Ht.
  destruct (all_str texts) as [ss|e] eqn:Hss; [|done]. injection Ht as <-.
  destruct (line_texts_fields items texts ss Htexts Hss) as [-> _].
  unfold state_of, attr_of. cbn [files_table set_table].
  rewrite lookup_insert_eq. unfold set_attrs. cbn.
  split; [|by rewrite lookup_insert_eq].
  rewrite lookup_insert_ne by done. by rewrite lookup_insert_eq.
Qed.



(** ** One handler after another *)

Lemma query_event_id id :
  (Ok (query_event id)).[PStr "pathParameters"].[PStr "file_id"]
    = Ok (PStr id).
Proof. reflexivity. Qed.


(** X4.  The identifier that a successful [create_file] returns can be
    queried at once: unless the read of the table fails, [get_file]
    answers 200 with that identifier, status UPLOADED and a null text. *)
Theorem create_file_then_get_file request w resp w1 :
  create_file request w = (Ok resp, w1) ->
  statusCode resp = 200 ->
  (next_fault w1).1 = None ->
  exists fid,
    body resp = PDict [("file_id", PStr fid)] /\
    (get_file (query_event fid) w1).1 =
      Ok (mkResponse 200
            (PDict [("file_id", PStr fid); ("status", PStr "UPLOADED");
                    ("text", PNone)])).
Proof.
  intros Hrun Hcode Hread.
  destruct (run_of_wp _ _ _ _ _ (wp_create_file request w) Hrun)
    as (resp' & [= <-] & [Hok|Hfail]);
    [|destruct Hfail as (Hcode' & _); congruence].
  destruct Hok as (_ & Hbody & Ht & _).
  exists (uuid4 (entropy w)). split; [done|].
  rewrite get_file_run, query_event_id.
  destruct (next_fault w1) as [[e|] w2]; [done|].
  rewrite Ht, lookup_insert_eq.
  destruct (decide (_ = ∅)) as [Hempty|_];
    [by apply insert_non_empty in Hempty|].
  rewrite lookup_insert_ne by done. rewrite lookup_singleton_eq.
  unfold item_get. rewrite lookup_insert_ne by done.
  by rewrite lookup_singleton_ne.
Qed.

(** X5.  After a successful [process_file] the document can be queried
    under the identifier of the answer: unless the read of the table
    fails, [get_file] answers 200 with status PROCESSED and the stored
    text, a string and never null. *)
Theorem process_file_then_get_file ev w resp w1 :
  process_file ev w = (Ok resp, w1) ->
  statusCode resp = 200 ->
  (next_fault w1).1 = None ->
  exists k text,
    body resp = PDict [("file_id", PStr k); ("status", PStr "PROCESSED")] /\
    attr_of w1 k "text" = Some text /\
    (get_file (query_event k) w1).1 =
      Ok (mkResponse 200
            (PDict [("file_id", PStr k); ("status", PStr "PROCESSED");
                    ("text", PStr text)])).
Proof.
  intros Hrun Hcode Hread.
  destruct (run_of_wp _ _ _ _ _ (wp_process_file ev w) Hrun)
    as (resp' & [= <-] & [Hok|Hfail]);
    [|destruct Hfail as (Hcode' & _); congruence].
  destruct Hok as (b & k & content & blocks & items & texts & t
                   & _ & _ & _ & _ & _ & _ & _ & -> & Ht).
  exists k, t. split; [done|].
  assert (Hrec : exists it, files_table w1 !! k = Some it /\
                   it !! "status" = Some "PROCESSED" /\ it !! "text" = Some t).
  { eexists. split; [by rewrite Ht, lookup_insert_eq|].
    unfold set_attrs. cbn. split; [|by rewrite lookup_insert_eq].
    rewrite lookup_insert_ne by done. by rewrite lookup_insert_eq. }
  destruct Hrec as (it & Hit & Hst & Htx).
  split; [unfold attr_of; by rewrite Hit|].
  rewrite get_file_run, query_event_id.
  destruct (next_fault w1) as [[e|] w2]; [done|].
  rewrite Hit.
  destruct (decide (it = ∅)) as [->|_]; [by rewrite lookup_empty in Hst|].
  rewrite Hst. unfold item_get. by rewrite Htx.
Qed.


(** X9.  A second delivery of an upload notification changes nothing in
    the ledger: after a [process_file] that returned 200, the same event,
    when no service call fails, gets the same answer and leaves every
    record as the first run left it. *)
Theorem process_file_twice ev w resp w1 :
  process_file ev w = (Ok resp, w1) ->
  statusCode resp = 200 ->
  faults w1 = [] ->
  (process_file ev w1).1 = Ok resp /\
  files_table (process_file ev w1).2 = files_table w1.
Proof.
  intros Hrun Hcode Hf.
  destruct (run_of_wp _ _ _ _ _ (wp_process_file ev w) Hrun)
    as (resp' & [= <-] & [Hok|Hfail]);
    [|destruct Hfail as (Hcode' & _); congruence].
  destruct Hok as (b & k & content & blocks & items & texts & t
                   & Hb & Hkey & Hobj & Hblocks & Hitems & Htexts & Htext
                   & Hresp & Ht).
  pose proof (run_of_wp _ _ _ _ _ (wp_process_file_frame ev w) Hrun)
    as (Hs & _).
  assert (Hok : Forall block_ok items)
    by (apply extraction_iff_blocks_ok; eauto).
  rewrite <- Hs in Hobj.
  pose proof (process_file_goes_through ev w1 b k content blocks items
                Hb Hkey Hf Hobj Hblocks Hitems Hok) as (Hr2 & _ & _).
  destruct (process_file ev w1) as [r2 w2] eqn:Hrun2. cbn [fst snd] in *.
  split; [by rewrite Hr2, Hresp|].
  destruct (run_of_wp _ _ _ _ _ (wp_process_file ev w1) Hrun2)
    as (resp2 & Hresp2 & [Hok2|Hfail2]);
    [|destruct Hfail2 as (Hcode2 & _); rewrite Hr2 in Hresp2;
      injection Hresp2 as <-; done].
  destruct Hok2 as (b' & k' & content' & blocks' & items' & texts' & t'
                    & Hb' & Hkey' & Hobj' & Hblocks' & Hitems' & Htexts'
                    & Htext' & _ & Ht2).
  assert (b' = b) as -> by congruence.
  assert (k' = k) as -> by congruence.
  assert (content' = content) as -> by congruence.
  assert (blocks' = blocks) as -> by congruence.
  assert (items' = items) as -> by congruence.
  assert (texts' = texts) as -> by congruence.
  assert (t' = t) as -> by congruence.
  rewrite Ht2. clear Ht2.
  set (first_write := set_attrs _ _) in Ht. rewrite Ht.
  rewrite (lookup_insert_eq (files_table w) k first_write).
  cbn [default from_option]. unfold Datatypes.id.
  rewrite insert_insert_eq. f_equal.
  unfold first_write, set_attrs. cbn [fold_left fst snd].
  set (old := default _ _).
  rewrite (insert_id (<["text":=t]> (<["status":="PROCESSED"]> old))
             "status" "PROCESSED").
  - apply insert_id. by rewrite lookup_insert_eq.
  - rewrite lookup_insert_ne by done. by rewrite lookup_insert_eq.
Qed.

End Further.

(** ** The loop of [make_callback] *)


Lemma for_each_related {A} (f g : A -> M unit) (R : World -> World -> Prop) xs :
  (forall x w1 w2, R w1 w2 ->
     (f x w1).1 = (g x w2).1 /\ R (f x w1).2 (g x w2).2) ->
  forall w1 w2, R w1 w2 ->
    (for_each f xs w1).1 = (for_each g xs w2).1 /\
    R (for_each f xs w1).2 (for_each g xs w2).2.
Proof.
  intros Hfg. induction xs as [|x xs IH]; intros w1 w2 Hw; [done|].
  cbn [for_each]. unfold mbind, M_bind.
  destruct (Hfg x w1 w2 Hw) as [Hr Hw'].
  destruct (f x w1) as [r1 w1'], (g x w2) as [r2 w2']. cbn [fst snd] in *.
  subst r2. destruct r1 as [[]|e]; [by apply IH|done].
Qed.

Section Dispatch.
Context `{Externals}.
Implicit Types (w : World) (e : exn).

Lemma make_callback_stream records w :
  make_callback (stream_event records) w = for_each callback_record records w.
Proof. reflexivity. Qed.

(** A readable record that is not due costs nothing. *)
Lemma callback_record_not_due record w :
  readable record -> is_due record = false ->
  callback_record record w = (Ok tt, w).
Proof.
  intros (event_name & Hname & Hmodify) Hdue.
  unfold is_due in Hdue. rewrite Hname in Hdue.
  unfold callback_record, mbind, M_bind, lift.
  change ((Ok record).[PStr "eventName"])
    with (getitem record (PStr "eventName")).
  rewrite Hname.
  destruct (py_eq_str event_name "MODIFY"); [|done].
  destruct (Hmodify eq_refl) as (file_id & status & Hid & Hst & _).
  rewrite Hst in Hdue. cbn [andb] in Hdue.
  unfold image_attr in Hid, Hst.
  destruct ((Ok record).[PStr "dynamodb"].[PStr "NewImage"])
    as [new_image|e]; [|done].
  by rewrite Hid, Hst, Hdue.
Qed.




(** X12.  Records that are not due cost nothing: on a batch of readable
    records none of which is a MODIFY with new status COMPLETED (INSERT
    and REMOVE records, changes to another status), [make_callback]
    returns and the world is exactly as before: no call to a service, no
    POST, no line in the log. *)
Theorem make_callback_skips_records_not_due records w :
  Forall readable records ->
  Forall (fun r => is_due r = false) records ->
  make_callback (stream_event records) w = (Ok tt, w).
Proof.
  rewrite make_callback_stream. revert w.
  induction records as [|record rest IH]; intros w Hall Hnone; [done|].
  apply Forall_cons in Hall as [Hrec Hrest].
  apply Forall_cons in Hnone as [Hdue Hnone].
  cbn [for_each]. unfold mbind, M_bind.
  rewrite (callback_record_not_due record w Hrec Hdue). by apply IH.
Qed.


End Dispatch.

(** X13.  The answer of the peer does not steer [make_callback]: under any
    two behaviours of the outside (status codes included) it returns or
    raises alike and leaves the same ledger, bucket, outbox and pending
    faults.  A status that is not 2xx raises nothing and causes no second
    attempt; only the logged code differs. *)
Theorem make_callback_ignores_response_status (E1 E2 : Externals) ev w :
  (@make_callback E1 ev w).1 = (@make_callback E2 ev w).1 /\
  same_but_logs (@make_callback E1 ev w).2 (@make_callback E2 ev w).2.
Proof.
  assert (Hrec : forall record w1 w2, same_but_logs w1 w2 ->
    (@callback_record E1 record w1).1 = (@callback_record E2 record w2).1 /\
    same_but_logs (@callback_record E1 record w1).2
                  (@callback_record E2 record w2).2).
  { intros record w1 w2 Hw. unfold callback_record, mbind, M_bind, lift.
    destruct ((Ok record).[PStr "eventName"]) as [event_name|e]; [|done].
    destruct (py_eq_str event_name "MODIFY"); [|done].
    destruct ((Ok record).[PStr "dynamodb"].[PStr "NewImage"])
      as [new_image|e]; [|done].
    destruct ((Ok new_image).[PStr "file_id"].[PStr "S"]) as [file_id|e];
      [|done].
    destruct ((Ok new_image).[PStr "status"].[PStr "S"]) as [status|e];
      [|done].
    destruct (py_eq_str status "COMPLETED"); [|done].
    destruct ((Ok new_image).[PStr "callback_url"].[PStr "S"])
      as [callback_url|e]; [|done].
    destruct ((Ok new_image).[PStr "text"].[PStr "S"]) as [text|e]; [|done].
    destruct callback_url as [| | |u| |]; try done.
    destruct Hw as (Ht & Hs & Ho & Hf & He).
    unfold requests_post, service, next_fault. cbn [faults set_outbox].
    rewrite Hf.
    destruct (faults w2) as [|[e|] fs] eqn:Hf2; cbn;
      unfold same_but_logs; cbn; rewrite Ho; split_and!; try done;
      congruence. }
  unfold make_callback, mbind, M_bind, lift.
  destruct ((Ok ev).[PStr "Records"]) as [records|e];
    [|split; [done|by unfold same_but_logs]].
  destruct (py_iter records) as [items|e];
    [|split; [done|by unfold same_but_logs]].
  apply (for_each_related _ _ same_but_logs); [exact Hrec|].
  by unfold same_but_logs.
Qed.

(** ** [create_file], call by call *)

Lemma next_fault_cons w f fs :
  faults w = f :: fs -> next_fault w = (f, set_faults fs w).
Proof. unfold next_fault. by intros ->. Qed.

Section Ingest.
Context `{Externals}.
Implicit Types (w : World) (e : exn).

(** X10.  [create_file] goes through whenever the body parses, its [file]
    decodes and no service call fails: it answers 200 with the drawn
    identifier, the record of that identifier is UPLOADED and the decoded
    content is in [BUCKET_NAME] under the identifier.  Nothing else of the
    body is read. *)
Theorem create_file_succeeds_on_readable_request request w b content :
  py_json_loads' (Ok request).[PStr "body"] = Ok b ->
  py_b64decode' (Ok b).[PStr "file"] = Ok content ->
  faults w = [] ->
  (create_file request w).1 =
    Ok (mkResponse 200 (PDict [("file_id", PStr (uuid4 (entropy w)))])) /\
  files_table (create_file request w).2 =
    <[uuid4 (entropy w) :=
        {["file_id" := uuid4 (entropy w); "status" := "UPLOADED"]}]>
      (files_table w) /\
  s3_objects (create_file request w).2 =
    <[(BUCKET_NAME, uuid4 (entropy w)) := content]> (s3_objects w).
Proof.
  intros Hb Hc Hf.
  destruct (create_file request w) as [r w'] eqn:Hrun.
  assert (Hr : r = Ok (mkResponse 200
                         (PDict [("file_id", PStr (uuid4 (entropy w)))]))).
  { revert Hrun.
    unfold create_file, try_except, create_file_try, mbind, M_bind, lift,
      uuid4_str, logger.
    rewrite Hb, Hc.
    unfold put_item, service. rewrite next_fault_nil by exact Hf.
    rewrite lookup_insert_eq.
    unfold put_object, service. rewrite next_fault_nil by exact Hf.
    unfold update_item, service. rewrite next_fault_nil by exact Hf.
    by intros [= <- _]. }
  subst r. cbn [fst snd].
  destruct (run_of_wp _ _ _ _ _ (wp_create_file request w) Hrun)
    as (resp & [= <-] & [Hok|Hfail]);
    [|by destruct Hfail as (Hcode & _)].
  destruct Hok as (_ & _ & Ht & b' & content' & Hb' & Hc' & Hs).
  split; [done|]. split; [done|].
  assert (b' = b) as -> by congruence.
  assert (content' = content) as -> by congruence. done.
Qed.

(** X15.  What a failure of [create_file] leaves depends on the call that
    failed.  The write of the record fails: nothing is stored.  The upload
    fails: the record is stored in UPLOADING, no object.  The update of
    the status fails: the object is stored and the record still says
    UPLOADING.  Each time the answer is 500 with the text of the
    exception. *)
Theorem create_file_failure_by_call request w b content e fs :
  py_json_loads' (Ok request).[PStr "body"] = Ok b ->
  py_b64decode' (Ok b).[PStr "file"] = Ok content ->
  (faults w = Some e :: fs ->
   (create_file request w).1 = Ok (error_500 (str_exn e)) /\
   files_table (create_file request w).2 = files_table w /\
   s3_objects (create_file request w).2 = s3_objects w) /\
  (faults w = None :: Some e :: fs ->
   (create_file request w).1 = Ok (error_500 (str_exn e)) /\
   files_table (create_file request w).2 =
     <[uuid4 (entropy w) :=
         {["file_id" := uuid4 (entropy w); "status" := "UPLOADING"]}]>
       (files_table w) /\
   s3_objects (create_file request w).2 = s3_objects w) /\
  (faults w = None :: None :: Some e :: fs ->
   (create_file request w).1 = Ok (error_500 (str_exn e)) /\
   files_table (create_file request w).2 =
     <[uuid4 (entropy w) :=
         {["file_id" := uuid4 (entropy w); "status" := "UPLOADING"]}]>
       (files_table w) /\
   s3_objects (create_file request w).2 =
     <[(BUCKET_NAME, uuid4 (entropy w)) := content]> (s3_objects w)).
Proof.
  intros Hb Hc.
  unfold create_file, try_except, create_file_try, mbind, M_bind, lift,
    uuid4_str, logger.
  rewrite Hb, Hc. unfold put_item, service.
  split_and!; intros Hf.
  - by rewrite (next_fault_cons _ (Some e) fs) by exact Hf.
  - rewrite (next_fault_cons _ None (Some e :: fs)) by exact Hf.
    rewrite lookup_insert_eq.
    unfold put_object, service.
    by rewrite (next_fault_cons _ (Some e) fs) by reflexivity.
  - rewrite (next_fault_cons _ None (None :: Some e :: fs)) by exact Hf.
    rewrite lookup_insert_eq.
    unfold put_object, service.
    rewrite (next_fault_cons _ None (Some e :: fs)) by reflexivity.
    unfold update_item, service.
    by rewrite (next_fault_cons _ (Some e) fs) by reflexivity.
Qed.


(** X17.  The handlers keep the ledger well formed: if every record
    carries its key as [file_id] and has a [status], this is still so
    after any sequence of invocations, whatever they returned or raised.
    On such a ledger [get_file] answers every query whose read of the
    table is not failed: it never stumbles on a record without status. *)
Theorem handlers_keep_ledger_well_formed cs w :
  well_formed (files_table w) ->
  well_formed (files_table (run cs w)) /\
  forall id,
    (next_fault (run cs w)).1 = None ->
    exists resp, (get_file (query_event id) (run cs w)).1 = Ok resp.
Proof.
  intros Hwf. pose proof (run_well_formed cs w Hwf) as Hwf'.
  split; [done|]. intros id Hread.
  rewrite get_file_run, query_event_id.
  destruct (next_fault (run cs w)) as [[e|] w1]; [done|].
  destruct (files_table (run cs w) !! id) as [it|] eqn:Hit; [|by eexists].
  destruct (decide (it = ∅)); [by eexists|].
  destruct (Hwf' id it Hit) as [_ [status ->]]. by eexists.
Qed.

End Ingest.

(** * The handlers on concrete inputs *)

#[local] Existing Instance double.

(** The scenario of the specification, as the code runs it: ingest, then
    extraction, then the query. *)
Example ingest_then_extract_then_query :
  let w1 := (create_file (ingest_event hello_hook_body) empty_world).2 in
  let w2 := (process_file doc0_uploaded w1).2 in
  (create_file (ingest_event hello_hook_body) empty_world).1 = Ok created_doc0 /\
  state_of w1 "doc-0" = Some "UPLOADED" /\
  (process_file doc0_uploaded w1).1 = Ok processed_doc0 /\
  state_of w2 "doc-0" = Some "PROCESSED" /\
  (get_file (query_event "doc-0") w2).1 =
    Ok (mkResponse 200 (PDict [("file_id", PStr "doc-0");
                               ("status", PStr "PROCESSED");
                               ("text", PStr "HELLO WORLD")])).
Proof. vm_compute. done. Qed.

(** C1, counterexample.  The record is written, then the blob write fails:
    [create_file] answers 500 and the record stays in UPLOADING, with no
    reason on it. *)
Lemma create_file_leaves_record_uploading :
  (create_file (ingest_event hello_body)
     (set_faults [None; Some (ClientError "ServiceUnavailable")] empty_world)).1
    = Ok (error_500 "ServiceUnavailable") /\
  files_table
    (create_file (ingest_event hello_body)
       (set_faults [None; Some (ClientError "ServiceUnavailable")] empty_world)).2
    !! "doc-0" = Some {["file_id" := "doc-0"; "status" := "UPLOADING"]}.
Proof. split; vm_compute; reflexivity. Qed.

(** C2, counterexample.  doc-0 is COMPLETED with its text; the upload
    notification is delivered again: [process_file] answers 200, the state
    is back to PROCESSED and the text is replaced. *)
Lemma process_file_overwrites_completed :
  state_of (sample_world "COMPLETED" [("text", "OLD TEXT")] []) "doc-0"
    = Some "COMPLETED" /\
  attr_of (sample_world "COMPLETED" [("text", "OLD TEXT")] []) "doc-0" "text"
    = Some "OLD TEXT" /\
  (process_file doc0_uploaded
     (sample_world "COMPLETED" [("text", "OLD TEXT")] [])).1
    = Ok processed_doc0 /\
  state_of
    (process_file doc0_uploaded
       (sample_world "COMPLETED" [("text", "OLD TEXT")] [])).2 "doc-0"
    = Some "PROCESSED" /\
  attr_of
    (process_file doc0_uploaded
       (sample_world "COMPLETED" [("text", "OLD TEXT")] [])).2 "doc-0" "text"
    = Some "HELLO WORLD".
Proof. split_and!; vm_compute; reflexivity. Qed.

(** C2, witness: a query, a callback, an ingest and an extraction of
    another document leave the COMPLETED doc-0 as it is. *)
Lemma record_changes_only_when_aimed_at_witness :
  spared "doc-0"
    [GetFile (query_event "doc-0");
     MakeCallback (stream_event [sample_change "MODIFY" "COMPLETED"]);
     CreateFile (ingest_event hello_body);
     ProcessFile (upload_event "textract-files" "doc-1")]
    (notifiable_world "COMPLETED") = true /\
  state_of
    (run [GetFile (query_event "doc-0");
          MakeCallback (stream_event [sample_change "MODIFY" "COMPLETED"]);
          CreateFile (ingest_event hello_body);
          ProcessFile (upload_event "textract-files" "doc-1")]
       (notifiable_world "COMPLETED")) "doc-0"
    = state_of (notifiable_world "COMPLETED") "doc-0" /\
  process_file doc0_uploaded (notifiable_world "COMPLETED")
    = (Ok processed_doc0,
       (process_file doc0_uploaded (notifiable_world "COMPLETED")).2) /\
  state_of (process_file doc0_uploaded (notifiable_world "COMPLETED")).2 "doc-0"
    = Some "PROCESSED".
Proof.
  destruct (record_changes_only_when_aimed_at "doc-0") as [Hframe Hreset].
  split; [vm_compute; reflexivity|]. split; [|split].
  - apply Hframe. vm_compute. reflexivity.
  - vm_compute. reflexivity.
  - apply (Hreset doc0_uploaded (notifiable_world "COMPLETED") processed_doc0);
      [reflexivity | vm_compute; reflexivity | reflexivity].
Defined.

(** C3.  A MODIFY record whose new status is PROCESSED gets no callback; a
    MODIFY record whose new status is COMPLETED, a status no handler
    writes, gets one. *)
Lemma make_callback_fires_on_completed_not_on_processed :
  outbox (make_callback (stream_event [sample_change "MODIFY" "PROCESSED"])
            (notifiable_world "PROCESSED")).2 = [] /\
  outbox (make_callback (stream_event [sample_change "MODIFY" "COMPLETED"])
            (notifiable_world "COMPLETED")).2 = [doc0_notification].
Proof. split; vm_compute; reflexivity. Qed.

(** C4, counterexample.  The POST for doc-0 is sent and answered with 200;
    the ledger is as before and the record has no [notified]. *)
Lemma answered_callback_updates_no_record :
  outbox (make_callback (stream_event [sample_change "MODIFY" "COMPLETED"])
            (notifiable_world "COMPLETED")).2 = [doc0_notification] /\
  http_status 0 doc0_notification.1 doc0_notification.2 = 200 /\
  files_table
    (make_callback (stream_event [sample_change "MODIFY" "COMPLETED"])
       (notifiable_world "COMPLETED")).2
    = files_table (notifiable_world "COMPLETED") /\
  attr_of
    (make_callback (stream_event [sample_change "MODIFY" "COMPLETED"])
       (notifiable_world "COMPLETED")).2 "doc-0" "notified" = None.
Proof. split_and!; vm_compute; reflexivity. Qed.



(** A COMPLETED record without [callback_url] is not skipped: the handler
    raises [KeyError], and the records after it in the batch are not
    looked at. *)
Example make_callback_raises_without_callback_url :
  make_callback
    (stream_event [sample_change_no_url "MODIFY" "COMPLETED";
                   sample_change "MODIFY" "COMPLETED"])
    (notifiable_world "COMPLETED")
  = (Raise (KeyError "callback_url"), notifiable_world "COMPLETED").
Proof. vm_compute. reflexivity. Qed.

(** C7, counterexample.  The record of doc-0 is in UPLOADING, or there is
    no record at all: [process_file] goes through and leaves the record in
    PROCESSED. *)
Lemma process_file_proceeds_from_any_state :
  state_of (sample_world "UPLOADING" [] []) "doc-0" = Some "UPLOADING" /\
  (process_file doc0_uploaded (sample_world "UPLOADING" [] [])).1
    = Ok processed_doc0 /\
  state_of (process_file doc0_uploaded (sample_world "UPLOADING" [] [])).2
    "doc-0" = Some "PROCESSED" /\
  (process_file doc0_uploaded
     (set_table ∅ (sample_world "UPLOADING" [] []))).1 = Ok processed_doc0 /\
  state_of
    (process_file doc0_uploaded
       (set_table ∅ (sample_world "UPLOADING" [] []))).2 "doc-0"
    = Some "PROCESSED".
Proof. split_and!; vm_compute; reflexivity. Qed.

(** C7, witness: the extraction of doc-0 from UPLOADING. *)
Lemma process_file_write_is_unconditional_witness :
  process_file doc0_uploaded (sample_world "UPLOADING" [] [])
    = (Ok processed_doc0,
       (process_file doc0_uploaded (sample_world "UPLOADING" [] [])).2) /\
  statusCode processed_doc0 = 200 /\
  exists k text,
    object_key_of doc0_uploaded = Some k /\
    files_table (process_file doc0_uploaded (sample_world "UPLOADING" [] [])).2 =
      <[k := set_attrs [("status", "PROCESSED"); ("text", text)]
               (default {["file_id" := k]}
                  (files_table (sample_world "UPLOADING" [] []) !! k))]>
        (files_table (sample_world "UPLOADING" [] [])) /\
    forall t, exists w'',
      process_file doc0_uploaded (set_table t (sample_world "UPLOADING" [] []))
        = (Ok processed_doc0, w'') /\
      files_table w'' =
        <[k := set_attrs [("status", "PROCESSED"); ("text", text)]
                 (default {["file_id" := k]} (t !! k))]> t.
Proof.
  split; [vm_compute; reflexivity|]. split; [reflexivity|].
  apply process_file_write_is_unconditional; [vm_compute|]; reflexivity.
Defined.





(** On Textract's answer for [b'hello'], a PAGE block without text, two
    LINE blocks and their WORD blocks, the stored text is the two lines. *)
Example hello_world_text :
  attr_of (process_file doc0_uploaded (sample_world "UPLOADED" [] [])).2
    "doc-0" "text" = Some "HELLO WORLD".
Proof. vm_compute. reflexivity. Qed.

(** * The further properties on concrete inputs *)

(** X4, witness: the ingest of [b'hello'], then the query of doc-0. *)
Lemma create_file_then_get_file_witness :
  create_file (ingest_event hello_body) empty_world
    = (Ok created_doc0,
       (create_file (ingest_event hello_body) empty_world).2) /\
  statusCode created_doc0 = 200 /\
  (next_fault (create_file (ingest_event hello_body) empty_world).2).1
    = None /\
  exists fid,
    body created_doc0 = PDict [("file_id", PStr fid)] /\
    (get_file (query_event fid)
       (create_file (ingest_event hello_body) empty_world).2).1 =
      Ok (mkResponse 200
            (PDict [("file_id", PStr fid); ("status", PStr "UPLOADED");
                    ("text", PNone)])).
Proof.
  split; [vm_compute; reflexivity|]. split; [reflexivity|].
  split; [vm_compute; reflexivity|].
  apply (create_file_then_get_file (ingest_event hello_body) empty_world);
    [vm_compute; reflexivity | reflexivity | vm_compute; reflexivity].
Defined.

(** X5, witness: the extraction of doc-0, then its query. *)
Lemma process_file_then_get_file_witness :
  process_file doc0_uploaded (sample_world "UPLOADED" [] [])
    = (Ok processed_doc0,
       (process_file doc0_uploaded (sample_world "UPLOADED" [] [])).2) /\
  statusCode processed_doc0 = 200 /\
  (next_fault (process_file doc0_uploaded (sample_world "UPLOADED" [] [])).2).1
    = None /\
  exists k text,
    body processed_doc0
      = PDict [("file_id", PStr k); ("status", PStr "PROCESSED")] /\
    attr_of (process_file doc0_uploaded (sample_world "UPLOADED" [] [])).2
      k "text" = Some text /\
    (get_file (query_event k)
       (process_file doc0_uploaded (sample_world "UPLOADED" [] [])).2).1 =
      Ok (mkResponse 200
            (PDict [("file_id", PStr k); ("status", PStr "PROCESSED");
                    ("text", PStr text)])).
Proof.
  split; [vm_compute; reflexivity|]. split; [reflexivity|].
  split; [vm_compute; reflexivity|].
  apply (process_file_then_get_file doc0_uploaded
           (sample_world "UPLOADED" [] []));
    [vm_compute; reflexivity | reflexivity | vm_compute; reflexivity].
Defined.




(** X9, witness: the upload notification of doc-0, delivered twice. *)
Lemma process_file_twice_witness :
  process_file doc0_uploaded (sample_world "UPLOADED" [] [])
    = (Ok processed_doc0,
       (process_file doc0_uploaded (sample_world "UPLOADED" [] [])).2) /\
  statusCode processed_doc0 = 200 /\
  faults (process_file doc0_uploaded (sample_world "UPLOADED" [] [])).2 = [] /\
  (process_file doc0_uploaded
     (process_file doc0_uploaded (sample_world "UPLOADED" [] [])).2).1
    = Ok processed_doc0 /\
  files_table
    (process_file doc0_uploaded
       (process_file doc0_uploaded (sample_world "UPLOADED" [] [])).2).2
    = files_table (process_file doc0_uploaded (sample_world "UPLOADED" [] [])).2.
Proof.
  split; [vm_compute; reflexivity|]. split; [reflexivity|].
  split; [vm_compute; reflexivity|].
  apply (process_file_twice doc0_uploaded (sample_world "UPLOADED" [] []));
    [vm_compute; reflexivity | reflexivity | vm_compute; reflexivity].
Defined.

(** X10, witness: the ingest of [b'hello']. *)
Lemma create_file_succeeds_on_readable_request_witness :
  py_json_loads' (Ok (ingest_event hello_body)).[PStr "body"]
    = Ok (PDict [("file", PStr "aGVsbG8=")]) /\
  py_b64decode' (Ok (PDict [("file", PStr "aGVsbG8=")])).[PStr "file"]
    = Ok hello_bytes /\
  faults empty_world = [] /\
  (create_file (ingest_event hello_body) empty_world).1 = Ok created_doc0 /\
  s3_objects (create_file (ingest_event hello_body) empty_world).2
    = {[("textract-files", "doc-0") := hello_bytes]}.
Proof.
  split; [reflexivity|]. split; [reflexivity|]. split; [reflexivity|].
  destruct (create_file_succeeds_on_readable_request
              (ingest_event hello_body) empty_world
              (PDict [("file", PStr "aGVsbG8=")]) hello_bytes)
    as (Hr & _ & Hs); [reflexivity..|].
  split; [exact Hr|]. rewrite Hs. vm_compute. reflexivity.
Defined.

Lemma sample_change_readable event_name status :
  readable (sample_change event_name status).
Proof.
  exists (PStr event_name). split; [reflexivity|]. intros _.
  exists (PStr "doc-0"), (PStr status). split; [reflexivity|].
  split; [reflexivity|]. intros _. by eexists.
Qed.


(** X12, witness: an INSERT, a REMOVE without new image and a change to
    PROCESSED without callback URL. *)
Lemma make_callback_skips_records_not_due_witness :
  Forall readable
    [sample_change "INSERT" "UPLOADING"; PDict [("eventName", PStr "REMOVE")];
     sample_change_no_url "MODIFY" "PROCESSED"] /\
  Forall (fun r => is_due r = false)
    [sample_change "INSERT" "UPLOADING"; PDict [("eventName", PStr "REMOVE")];
     sample_change_no_url "MODIFY" "PROCESSED"] /\
  make_callback
    (stream_event
       [sample_change "INSERT" "UPLOADING";
        PDict [("eventName", PStr "REMOVE")];
        sample_change_no_url "MODIFY" "PROCESSED"])
    (sample_world "PROCESSED" [] [Some (ClientError "unreachable")])
  = (Ok tt, sample_world "PROCESSED" [] [Some (ClientError "unreachable")]).
Proof.
  assert (Hall : Forall readable
    [sample_change "INSERT" "UPLOADING"; PDict [("eventName", PStr "REMOVE")];
     sample_change_no_url "MODIFY" "PROCESSED"]).
  { repeat constructor.
    - apply sample_change_readable.
    - exists (PStr "REMOVE"). by split.
    - exists (PStr "MODIFY"). split; [reflexivity|]. intros _.
      exists (PStr "doc-0"), (PStr "PROCESSED"). by split_and!. }
  assert (Hnone : Forall (fun r => is_due r = false)
    [sample_change "INSERT" "UPLOADING"; PDict [("eventName", PStr "REMOVE")];
     sample_change_no_url "MODIFY" "PROCESSED"])
    by (repeat constructor).
  split; [exact Hall|]. split; [exact Hnone|].
  by apply make_callback_skips_records_not_due.
Defined.

Lemma hello_request_parses :
  py_json_loads' (Ok (ingest_event hello_body)).[PStr "body"]
    = Ok (PDict [("file", PStr "aGVsbG8=")]) /\
  py_b64decode' (Ok (PDict [("file", PStr "aGVsbG8=")])).[PStr "file"]
    = Ok hello_bytes.
Proof. split; reflexivity. Defined.

(** X15, witness: the ingest of [b'hello'] with the first, the second and
    the third call failing. *)
Lemma create_file_failure_by_call_witness :
  files_table
    (create_file (ingest_event hello_body)
       (set_faults [Some (ClientError "ServiceUnavailable")] empty_world)).2
    = ∅ /\
  s3_objects
    (create_file (ingest_event hello_body)
       (set_faults [None; Some (ClientError "ServiceUnavailable")]
          empty_world)).2 = ∅ /\
  s3_objects
    (create_file (ingest_event hello_body)
       (set_faults [None; None; Some (ClientError "ServiceUnavailable")]
          empty_world)).2
    = {[("textract-files", "doc-0") := hello_bytes]} /\
  state_of
    (create_file (ingest_event hello_body)
       (set_faults [None; None; Some (ClientError "ServiceUnavailable")]
          empty_world)).2 "doc-0" = Some "UPLOADING".
Proof.
  split_and!.
  - destruct (create_file_failure_by_call (ingest_event hello_body)
                (set_faults [Some (ClientError "ServiceUnavailable")]
                   empty_world)
                (PDict [("file", PStr "aGVsbG8=")]) hello_bytes
                (ClientError "ServiceUnavailable") []
                (proj1 hello_request_parses) (proj2 hello_request_parses))
      as (Hfirst & _ & _).
    by destruct (Hfirst eq_refl) as (_ & -> & _).
  - destruct (create_file_failure_by_call (ingest_event hello_body)
                (set_faults [None; Some (ClientError "ServiceUnavailable")]
                   empty_world)
                (PDict [("file", PStr "aGVsbG8=")]) hello_bytes
                (ClientError "ServiceUnavailable") []
                (proj1 hello_request_parses) (proj2 hello_request_parses))
      as (_ & Hsecond & _).
    by destruct (Hsecond eq_refl) as (_ & _ & ->).
  - destruct (create_file_failure_by_call (ingest_event hello_body)
                (set_faults
                   [None; None; Some (ClientError "ServiceUnavailable")]
                   empty_world)
                (PDict [("file", PStr "aGVsbG8=")]) hello_bytes
                (ClientError "ServiceUnavailable") []
                (proj1 hello_request_parses) (proj2 hello_request_parses))
      as (_ & _ & Hthird).
    destruct (Hthird eq_refl) as (_ & _ & ->). vm_compute. reflexivity.
  - destruct (create_file_failure_by_call (ingest_event hello_body)
                (set_faults
                   [None; None; Some (ClientError "ServiceUnavailable")]
                   empty_world)
                (PDict [("file", PStr "aGVsbG8=")]) hello_bytes
                (ClientError "ServiceUnavailable") []
                (proj1 hello_request_parses) (proj2 hello_request_parses))
      as (_ & _ & Hthird).
    destruct (Hthird eq_refl) as (_ & Ht & _). unfold state_of.
    rewrite Ht. vm_compute. reflexivity.
Defined.


(** X17, witness: from the empty ledger, an ingest, the extraction and a
    failed ingest. *)
Lemma handlers_keep_ledger_well_formed_witness :
  well_formed (files_table empty_world) /\
  well_formed
    (files_table
       (run [CreateFile (ingest_event hello_body); ProcessFile doc0_uploaded;
             CreateFile (ingest_event "not json")] empty_world)) /\
  exists resp,
    (get_file (query_event "doc-0")
       (run [CreateFile (ingest_event hello_body); ProcessFile doc0_uploaded;
             CreateFile (ingest_event "not json")] empty_world)).1 = Ok resp.
Proof.
  assert (Hempty : well_formed (files_table empty_world)).
  { intros k it Hit. cbn [files_table empty_world] in Hit.
    by rewrite lookup_empty in Hit. }
  split; [exact Hempty|].
  destruct (handlers_keep_ledger_well_formed
              [CreateFile (ingest_event hello_body); ProcessFile doc0_uploaded;
               CreateFile (ingest_event "not json")] empty_world Hempty)
    as [Hwf Hget].
  split; [exact Hwf|]. apply Hget. vm_compute. reflexivity.
Defined.
